(** * The account, premium-status and meal-plan layer of [src/types/user.ts]

    A shallow embedding of the Firebase-backed account functions
    ([getUserData], [addPremiumUser], [verifyPremiumStatus], [createUser],
    [getAuthErrorMessage]) and of [generateMealPlan].

    The hosted services are the environment.  They are modelled by a [World]:
    the two Firestore collections as finite maps, the accounts of the identity
    provider, a clock, the analytics log, the completions the generation
    endpoint will answer with, and a schedule of faults that lets any call
    into a hosted service throw, which is what the [try]/[catch] blocks of the
    source are written for.  An [async] function is a state-passing function
    on worlds that returns or throws; the functions run one at a time.

    Strings are sequences of 8-bit code units and [toLowerCase] acts on the
    ASCII letters.  A timestamp is the reading of the clock it was rendered
    from, and the clock moves on at every reading.  Generated ids (uids of
    new accounts, ids of new subscription records) are ids that are not in
    use. *)

From Stdlib Require Import String Ascii ZArith List Bool.
From stdpp Require Import base option gmap strings list fin_maps infinite.

Set Warnings "-register-all".
Open Scope string_scope.

(** ** JavaScript values *)

Module JS.

(** [String.prototype.toLowerCase], on the ASCII letters: code units 65..90
    move to 97..122, every other code unit is kept. *)
Definition toLowerCaseChar (c : ascii) : ascii :=
  let n := nat_of_ascii c in
  if (65 <=? n)%nat && (n <=? 90)%nat then ascii_of_nat (n + 32) else c.

Fixpoint toLowerCase (s : string) : string :=
  match s with
  | EmptyString => EmptyString
  | String c s' => String (toLowerCaseChar c) (toLowerCase s')
  end.

(** What a [throw] carries.  [ErrorObj code message] is an instance of
    [Error]; a [FirebaseError] has a [code], a plain [new Error(message)] has
    none.  [NonError] is any other thrown value. *)
Inductive Thrown : Type :=
| ErrorObj (code : option string) (message : string)
| NonError (v : string).

(** [new Error(message)] *)
Definition newError (message : string) : Thrown := ErrorObj None message.

(** [error.code] *)
Definition code (e : Thrown) : option string :=
  match e with
  | ErrorObj c _ => c
  | NonError _ => None
  end.

(** [error instanceof Error ? error.message : 'Unknown error'] *)
Definition messageOrUnknown (e : Thrown) : string :=
  match e with
  | ErrorObj _ m => m
  | NonError _ => "Unknown error"
  end.

(** A parsed JSON value; an object holds each of its keys once. *)
Inductive json : Type :=
| JNull
| JBool (b : bool)
| JNum (n : Z)
| JStr (s : string)
| JArr (items : list json)
| JObj (fields : list (string * json)).

(** The result of a property read or of a statement. *)
Inductive Outcome (A : Type) : Type :=
| Return (a : A)
| Throw (e : Thrown).

Arguments Return {A} a.
Arguments Throw {A} e.

End JS.

Import JS.

(** ** Documents *)

Inductive Theme : Type := light | dark.

Record Preferences : Type := {
  dietaryRestrictions : list string;
  servingSize : Z;
  theme : Theme
}.

(** An ISO timestamp, kept as the clock reading it was rendered from. *)
Definition Timestamp : Type := nat.

(** A document of the [users] collection: the fields of [interface UserData]
    and [premiumDocId], which [addPremiumUser] writes next to them. *)
Module UserData.
Record t : Type := mk {
  username : string;
  email : string;
  isPremium : bool;
  premiumSince : option Timestamp;
  stripeSessionId : option string;
  stripeSubscriptionActive : option bool;
  stripeCustomerId : option string;
  savedRecipes : list json;
  mealPlans : list json;
  preferences : Preferences;
  lastVerified : option Timestamp;
  createdAt : Timestamp;
  updatedAt : Timestamp;
  premiumDocId : option string
}.
End UserData.

(** A document of the [premiumUsers] collection. *)
Module PremiumUser.
Record t : Type := mk {
  email : string;
  userId : string;
  active : bool;
  stripeSubscriptionActive : bool;
  createdAt : Timestamp;
  updatedAt : Timestamp
}.
End PremiumUser.

(** An account of the identity provider. *)
Module Account.
Record t : Type := mk {
  email : string;
  password : string;
  displayName : option string
}.
End Account.

(** A value of an analytics parameter map. *)
Inductive Param : Type :=
| PStr (s : string)
| PBool (b : bool)
| PNum (n : nat)
| PTime (t : Timestamp)
| PKeys (ks : list string).

Record Event : Type := {
  eventName : string;
  eventParams : list (string * Param)
}.

(** A chat completion: the [message.content] of each of its [choices]. *)
Record ChatCompletion : Type := {
  choices : list (option string)
}.

(** ** The environment *)

Record World : Type := mkWorld {
  users : gmap string UserData.t;
  premiumUsers : gmap string PremiumUser.t;
  accounts : gmap string Account.t;
  currentUser : option string;
  clock : Timestamp;
  events : list Event;
  completions : list ChatCompletion;
  faults : list (option Thrown)
}.

Definition set_users (f : gmap string UserData.t -> gmap string UserData.t) (w : World) : World :=
  mkWorld (f (users w)) (premiumUsers w) (accounts w) (currentUser w)
          (clock w) (events w) (completions w) (faults w).

Definition set_premiumUsers (f : gmap string PremiumUser.t -> gmap string PremiumUser.t) (w : World) : World :=
  mkWorld (users w) (f (premiumUsers w)) (accounts w) (currentUser w)
          (clock w) (events w) (completions w) (faults w).

Definition set_accounts (f : gmap string Account.t -> gmap string Account.t) (w : World) : World :=
  mkWorld (users w) (premiumUsers w) (f (accounts w)) (currentUser w)
          (clock w) (events w) (completions w) (faults w).

Definition set_currentUser (u : option string) (w : World) : World :=
  mkWorld (users w) (premiumUsers w) (accounts w) u
          (clock w) (events w) (completions w) (faults w).

Definition set_clock (t : Timestamp) (w : World) : World :=
  mkWorld (users w) (premiumUsers w) (accounts w) (currentUser w)
          t (events w) (completions w) (faults w).

Definition set_events (f : list Event -> list Event) (w : World) : World :=
  mkWorld (users w) (premiumUsers w) (accounts w) (currentUser w)
          (clock w) (f (events w)) (completions w) (faults w).

Definition set_completions (cs : list ChatCompletion) (w : World) : World :=
  mkWorld (users w) (premiumUsers w) (accounts w) (currentUser w)
          (clock w) (events w) cs (faults w).

Definition set_faults (fs : list (option Thrown)) (w : World) : World :=
  mkWorld (users w) (premiumUsers w) (accounts w) (currentUser w)
          (clock w) (events w) (completions w) fs.

(** ** Statements: state passing with exceptions *)

Definition M (A : Type) : Type := World -> Outcome A * World.

#[export] Instance M_ret : MRet M := fun A a w => (Return a, w).

#[export] Instance M_bind : MBind M := fun A B k m w =>
  match m w with
  | (Return a, w') => k a w'
  | (Throw e, w') => (Throw e, w')
  end.

(** [throw e] *)
Definition throw {A : Type} (e : Thrown) : M A := fun w => (Throw e, w).

(** [try { body } catch (error) { handler }] *)
Definition try_catch {A : Type} (body : M A) (handler : Thrown -> M A) : M A := fun w =>
  match body w with
  | (Return a, w') => (Return a, w')
  | (Throw e, w') => handler e w'
  end.

(** A call into a hosted service.  It takes the next entry of the fault
    schedule: [Some e] makes the call throw [e] without effect, [None] lets it
    through, and past the end of the schedule every call goes through. *)
Definition external {A : Type} (op : M A) : M A := fun w =>
  match faults w with
  | Some e :: fs => (Throw e, set_faults fs w)
  | None :: fs => op (set_faults fs w)
  | [] => op w
  end.

(** [new Date().toISOString()]: reads the clock, which then moves on. *)
Definition now : M Timestamp := fun w => (Return (clock w), set_clock (S (clock w)) w).

(** ** Firestore *)

(** [getDoc(doc(db, 'users', userId))]: [None] is a snapshot whose
    [exists()] is false. *)
Definition getDoc_users (userId : string) : M (option UserData.t) :=
  external (fun w => (Return (users w !! userId), w)).

(** [updateDoc(doc(db, 'users', userId), fields)]: merges the fields into an
    existing document and rejects when there is none. *)
Definition updateDoc_users (userId : string) (fields : UserData.t -> UserData.t) : M unit :=
  external (fun w =>
    match users w !! userId with
    | Some d => (Return tt, set_users (insert userId (fields d)) w)
    | None => (Throw (ErrorObj (Some "not-found") "No document to update"), w)
    end).

(** [setDoc(doc(db, 'users', userId), data)] *)
Definition setDoc_users (userId : string) (data : UserData.t) : M unit :=
  external (fun w => (Return tt, set_users (insert userId data) w)).

(** [getDocs(query(collection(db, 'premiumUsers'), where ...))]: the
    documents that satisfy every [where] clause, with their ids.  Firestore
    returns them in the order of their ids; here the order is that of
    [map_to_list], and [docs[0]] is the head of the list. *)
Definition getDocs_premiumUsers (q : PremiumUser.t -> bool) : M (list (string * PremiumUser.t)) :=
  external (fun w =>
    (Return (List.filter (fun d => q (snd d)) (map_to_list (premiumUsers w))), w)).

(** [updateDoc(doc(premiumUsersRef, id), fields)] *)
Definition updateDoc_premiumUsers (id : string) (fields : PremiumUser.t -> PremiumUser.t) : M unit :=
  external (fun w =>
    match premiumUsers w !! id with
    | Some d => (Return tt, set_premiumUsers (insert id (fields d)) w)
    | None => (Throw (ErrorObj (Some "not-found") "No document to update"), w)
    end).

(** [setDoc(docRef, data)] on a document of [premiumUsers] *)
Definition setDoc_premiumUsers (id : string) (data : PremiumUser.t) : M unit :=
  external (fun w => (Return tt, set_premiumUsers (insert id data) w)).

(** [doc(premiumUsersRef)]: a reference with an auto-generated id, one that
    no document of the collection has.  The id is made on the client, so
    this is no call into the service. *)
Definition newDocRef_premiumUsers : M string := fun w =>
  (Return (fresh (dom (premiumUsers w))), w).

(** ** Identity provider *)

Definition registered (email : string) (w : World) : bool :=
  bool_decide (map_Exists (fun _ a => Account.email a = toLowerCase email) (accounts w)).

(** [createUserWithEmailAndPassword(auth, email, password)]: rejects with
    code [auth/email-already-in-use] for a registered email; otherwise opens
    an account under a new uid and signs it in.  The other rejections of the
    provider (invalid email, weak password, network) come from the fault
    schedule. *)
Definition createUserWithEmailAndPassword (email password : string) : M string :=
  external (fun w =>
    if registered email w
    then (Throw (ErrorObj (Some "auth/email-already-in-use")
                          "Firebase: Error (auth/email-already-in-use)."), w)
    else
      let uid := fresh (dom (accounts w)) in
      (Return uid,
       set_currentUser (Some uid)
         (set_accounts (insert uid (Account.mk (toLowerCase email) password None)) w))).

(** [updateProfile(user, { displayName })] *)
Definition updateProfile (uid displayName : string) : M unit :=
  external (fun w =>
    match accounts w !! uid with
    | Some a =>
        (Return tt,
         set_accounts (insert uid (Account.mk (Account.email a) (Account.password a) (Some displayName))) w)
    | None => (Throw (ErrorObj (Some "auth/user-not-found") "Firebase: Error (auth/user-not-found)."), w)
    end).

(** [auth.currentUser] *)
Definition auth_currentUser : M (option string) := fun w => (Return (currentUser w), w).

(** [signInWithEmailAndPassword(auth, email, password)]: signs in the account
    that has this email and this password, and rejects with code
    [auth/invalid-credential] when there is none.  The other rejections of
    the provider come from the fault schedule. *)
Definition signInWithEmailAndPassword (email password : string) : M string :=
  external (fun w =>
    match List.find (fun ua => (Account.email (snd ua) =? toLowerCase email)
                               && (Account.password (snd ua) =? password))
                    (map_to_list (accounts w)) with
    | Some (uid, _) => (Return uid, set_currentUser (Some uid) w)
    | None => (Throw (ErrorObj (Some "auth/invalid-credential")
                               "Firebase: Error (auth/invalid-credential)."), w)
    end).

(** [signOut(auth)] *)
Definition signOut : M unit :=
  external (fun w => (Return tt, set_currentUser None w)).

(** ** Analytics *)

(** [logEvent(analytics, eventName, eventParams)] *)
Definition logEvent (eventName : string) (eventParams : list (string * Param)) : M unit :=
  external (fun w => (Return tt, set_events (fun l => (l ++ [Build_Event eventName eventParams])%list) w)).

(** [logAnalyticsEvent]: a failure of [logEvent] is caught and only
    written to the console. *)
Definition logAnalyticsEvent (eventName : string) (eventParams : list (string * Param)) : M unit :=
  try_catch (logEvent eventName eventParams) (fun _ => mret tt).

(** ** Premium status *)

Module Verification.
Record t : Type := mk {
  isPremium : bool;
  lastVerified : Timestamp;
  error : option string
}.
End Verification.

(** The three [where] clauses of [verifyPremiumStatus]. *)
Definition activeSubscriptionOf (email : string) (d : PremiumUser.t) : bool :=
  String.eqb (PremiumUser.email d) email
  && Bool.eqb (PremiumUser.active d) true
  && Bool.eqb (PremiumUser.stripeSubscriptionActive d) true.

(** The fields [verifyPremiumStatus] passes to [updateDoc]. *)
Definition verifiedFields (isPremium : bool) (lastVerified updatedAt : Timestamp)
    (d : UserData.t) : UserData.t :=
  UserData.mk (UserData.username d) (UserData.email d) isPremium
    (UserData.premiumSince d) (UserData.stripeSessionId d) (Some isPremium)
    (UserData.stripeCustomerId d) (UserData.savedRecipes d) (UserData.mealPlans d)
    (UserData.preferences d) (Some lastVerified) (UserData.createdAt d) updatedAt
    (UserData.premiumDocId d).

(** The [try] block of [verifyPremiumStatus]. *)
Definition verifyPremiumStatus_try (userId : string) : M Verification.t :=
  userData ← getDoc_users userId;
  match userData with
  | None => throw (newError "User not found")
  | Some user =>
      querySnapshot ← getDocs_premiumUsers
                        (activeSubscriptionOf (toLowerCase (UserData.email user)));
      let isPremium := negb (bool_decide (querySnapshot = [])) in
      lastVerified ← now;
      updatedAt ← now;
      updateDoc_users userId (verifiedFields isPremium lastVerified updatedAt);;
      timestamp ← now;
      logAnalyticsEvent "premium_status_verified"
        [("userId", PStr userId); ("isPremium", PBool isPremium); ("timestamp", PTime timestamp)];;
      lastVerified' ← now;
      mret (Verification.mk isPremium lastVerified' None)
  end.

(** The [catch] block of [verifyPremiumStatus]. *)
Definition verifyPremiumStatus_catch (error : Thrown) : M Verification.t :=
  lastVerified ← now;
  mret (Verification.mk false lastVerified (Some (messageOrUnknown error))).

Definition verifyPremiumStatus (userId : string) : M Verification.t :=
  try_catch (verifyPremiumStatus_try userId) verifyPremiumStatus_catch.

(** The fields [getUserData] and [signIn] pass to [updateDoc]. *)
Definition refreshedFields (isPremium : bool) (lastVerified updatedAt : Timestamp)
    (d : UserData.t) : UserData.t :=
  UserData.mk (UserData.username d) (UserData.email d) isPremium
    (UserData.premiumSince d) (UserData.stripeSessionId d) (UserData.stripeSubscriptionActive d)
    (UserData.stripeCustomerId d) (UserData.savedRecipes d) (UserData.mealPlans d)
    (UserData.preferences d) (Some lastVerified) (UserData.createdAt d) updatedAt
    (UserData.premiumDocId d).

(** [{ ...userData, isPremium }] *)
Definition withIsPremium (isPremium : bool) (d : UserData.t) : UserData.t :=
  UserData.mk (UserData.username d) (UserData.email d) isPremium
    (UserData.premiumSince d) (UserData.stripeSessionId d) (UserData.stripeSubscriptionActive d)
    (UserData.stripeCustomerId d) (UserData.savedRecipes d) (UserData.mealPlans d)
    (UserData.preferences d) (UserData.lastVerified d) (UserData.createdAt d)
    (UserData.updatedAt d) (UserData.premiumDocId d).

Definition getUserData (userId : string) (forceRefresh : bool) : M UserData.t :=
  try_catch
    (userDoc ← getDoc_users userId;
     match userDoc with
     | None => throw (newError "User document not found")
     | Some userData =>
         if forceRefresh then
           verificationResult ← verifyPremiumStatus userId;
           if negb (Bool.eqb (Verification.isPremium verificationResult) (UserData.isPremium userData))
           then
             lastVerified ← now;
             updatedAt ← now;
             updateDoc_users userId
               (refreshedFields (Verification.isPremium verificationResult) lastVerified updatedAt);;
             mret (withIsPremium (Verification.isPremium verificationResult) userData)
           else mret userData
         else mret userData
     end)
    (fun error => throw error).

(** The fields [addPremiumUser] passes to [updateDoc] on an existing
    document of [premiumUsers]. *)
Definition reactivatedFields (updatedAt : Timestamp) (userId : string)
    (d : PremiumUser.t) : PremiumUser.t :=
  PremiumUser.mk (PremiumUser.email d) userId true true (PremiumUser.createdAt d) updatedAt.

(** The fields [addPremiumUser] passes to [updateDoc] on the caller's
    document of [users]. *)
Definition grantedFields (premiumSince : Timestamp) (normalizedEmail premiumDocId : string)
    (updatedAt lastVerified : Timestamp) (d : UserData.t) : UserData.t :=
  UserData.mk (UserData.username d) normalizedEmail true
    (Some premiumSince) (UserData.stripeSessionId d) (Some true)
    (UserData.stripeCustomerId d) (UserData.savedRecipes d) (UserData.mealPlans d)
    (UserData.preferences d) (Some lastVerified) (UserData.createdAt d) updatedAt
    (Some premiumDocId).

(** The [try] block of [addPremiumUser]. *)
Definition addPremiumUser_try (email : string) : M bool :=
  let normalizedEmail := toLowerCase email in
  user ← auth_currentUser;
  match user with
  | None => throw (newError "No authenticated user found")
  | Some userId =>
      userDoc ← getDoc_users userId;
      match userDoc with
      | None => throw (newError "User document not found")
      | Some _ =>
          querySnapshot ← getDocs_premiumUsers
                            (fun d => String.eqb (PremiumUser.email d) normalizedEmail);
          premiumDocId ←
            match querySnapshot with
            | (id, _) :: _ =>
                updatedAt ← now;
                updateDoc_premiumUsers id (reactivatedFields updatedAt userId);;
                mret id
            | [] =>
                createdAt ← now;
                updatedAt ← now;
                id ← newDocRef_premiumUsers;
                setDoc_premiumUsers id
                  (PremiumUser.mk normalizedEmail userId true true createdAt updatedAt);;
                mret id
            end;
          premiumSince ← now;
          updatedAt ← now;
          lastVerified ← now;
          updateDoc_users userId
            (grantedFields premiumSince normalizedEmail premiumDocId updatedAt lastVerified);;
          timestamp ← now;
          logAnalyticsEvent "premium_user_added"
            [("userId", PStr userId); ("email", PStr normalizedEmail); ("timestamp", PTime timestamp)];;
          verificationResult ← verifyPremiumStatus userId;
          if negb (Verification.isPremium verificationResult)
          then throw (newError "Premium status verification failed after update")
          else mret true
      end
  end.

Definition addPremiumUser (email : string) : M bool :=
  if bool_decide (email = "")
  then throw (newError "Email is required")
  else try_catch (addPremiumUser_try email) (fun error => throw error).

(** ** Accounts *)

Definition getAuthErrorMessage (errorCode : option string) : string :=
  match errorCode with
  | Some c =>
      if (c =? "auth/invalid-credential") || (c =? "auth/wrong-password")
         || (c =? "auth/user-not-found")
      then "Invalid email or password. Please try again."
      else if c =? "auth/email-already-in-use"
      then "This email is already registered. Please sign in instead."
      else if c =? "auth/weak-password"
      then "Password should be at least 6 characters long."
      else if c =? "auth/invalid-email"
      then "Please enter a valid email address."
      else if c =? "auth/too-many-requests"
      then "Too many failed attempts. Please try again later."
      else if c =? "auth/network-request-failed"
      then "Network error. Please check your connection and try again."
      else "An error occurred. Please try again."
  | None => "An error occurred. Please try again."
  end.

(** The document [createUser] writes. *)
Definition newUserData (username email : string) (isPremium : bool)
    (createdAt updatedAt : Timestamp) : UserData.t :=
  UserData.mk username (toLowerCase email) isPremium None None None None [] []
    {| dietaryRestrictions := []; servingSize := 2; theme := light |}
    None createdAt updatedAt None.

(** The [try] block of [createUser]; the returned user is given by its uid. *)
Definition createUser_try (email password username : string) : M string :=
  uid ← createUserWithEmailAndPassword email password;
  updateProfile uid username;;
  isPremium ← verifyPremiumStatus uid;
  createdAt ← now;
  updatedAt ← now;
  setDoc_users uid
    (newUserData username email (Verification.isPremium isPremium) createdAt updatedAt);;
  timestamp ← now;
  logAnalyticsEvent "user_created" [("userId", PStr uid); ("timestamp", PTime timestamp)];;
  mret uid.

(** The [catch] block of [createUser]. *)
Definition createUser_catch {A : Type} (error : Thrown) : M A :=
  if bool_decide (code error = Some "auth/email-already-in-use")
  then throw (newError "This email is already registered. Please sign in instead.")
  else throw (newError (getAuthErrorMessage (code error))).

Definition createUser (email password username : string) : M string :=
  try_catch (createUser_try email password username) createUser_catch.

(** The [try] block of [signIn]; the returned user is given by its uid. *)
Definition signIn_try (email password : string) : M string :=
  uid ← signInWithEmailAndPassword email password;
  verificationResult ← verifyPremiumStatus uid;
  lastVerified ← now;
  updatedAt ← now;
  updateDoc_users uid
    (refreshedFields (Verification.isPremium verificationResult) lastVerified updatedAt);;
  timestamp ← now;
  logAnalyticsEvent "user_signed_in" [("userId", PStr uid); ("timestamp", PTime timestamp)];;
  mret uid.

(** The [catch] block of [signIn]. *)
Definition signIn_catch {A : Type} (error : Thrown) : M A :=
  throw (newError (getAuthErrorMessage (code error))).

Definition signIn (email password : string) : M string :=
  try_catch (signIn_try email password) signIn_catch.

(** The [try] block of [signOutUser]; [if (userId)] skips the event for no
    user and for an empty uid. *)
Definition signOutUser_try : M unit :=
  userId ← auth_currentUser;
  signOut;;
  match userId with
  | Some userId =>
      if bool_decide (userId = "") then mret tt
      else
        timestamp ← now;
        logAnalyticsEvent "user_signed_out"
          [("userId", PStr userId); ("timestamp", PTime timestamp)]
  | None => mret tt
  end.

Definition signOutUser : M unit :=
  try_catch signOutUser_try
    (fun _ => throw (newError "Failed to sign out. Please try again.")).

(** One property of a [Partial<UserData>]: its key with its value. *)
Inductive Field : Type :=
| F_username (v : string)
| F_email (v : string)
| F_isPremium (v : bool)
| F_premiumSince (v : Timestamp)
| F_stripeSessionId (v : string)
| F_stripeSubscriptionActive (v : bool)
| F_stripeCustomerId (v : string)
| F_savedRecipes (v : list json)
| F_mealPlans (v : list json)
| F_preferences (v : Preferences)
| F_lastVerified (v : Timestamp)
| F_createdAt (v : Timestamp)
| F_updatedAt (v : Timestamp).

(** The key of a property. *)
Definition fieldKey (f : Field) : string :=
  match f with
  | F_username _ => "username"
  | F_email _ => "email"
  | F_isPremium _ => "isPremium"
  | F_premiumSince _ => "premiumSince"
  | F_stripeSessionId _ => "stripeSessionId"
  | F_stripeSubscriptionActive _ => "stripeSubscriptionActive"
  | F_stripeCustomerId _ => "stripeCustomerId"
  | F_savedRecipes _ => "savedRecipes"
  | F_mealPlans _ => "mealPlans"
  | F_preferences _ => "preferences"
  | F_lastVerified _ => "lastVerified"
  | F_createdAt _ => "createdAt"
  | F_updatedAt _ => "updatedAt"
  end.

(** What [updateDoc] does to a document for one property of its argument. *)
Definition setField (f : Field) (d : UserData.t) : UserData.t :=
  match f with
  | F_username v =>
      UserData.mk v (UserData.email d) (UserData.isPremium d) (UserData.premiumSince d)
        (UserData.stripeSessionId d) (UserData.stripeSubscriptionActive d)
        (UserData.stripeCustomerId d) (UserData.savedRecipes d) (UserData.mealPlans d)
        (UserData.preferences d) (UserData.lastVerified d) (UserData.createdAt d)
        (UserData.updatedAt d) (UserData.premiumDocId d)
  | F_email v =>
      UserData.mk (UserData.username d) v (UserData.isPremium d) (UserData.premiumSince d)
        (UserData.stripeSessionId d) (UserData.stripeSubscriptionActive d)
        (UserData.stripeCustomerId d) (UserData.savedRecipes d) (UserData.mealPlans d)
        (UserData.preferences d) (UserData.lastVerified d) (UserData.createdAt d)
        (UserData.updatedAt d) (UserData.premiumDocId d)
  | F_isPremium v =>
      UserData.mk (UserData.username d) (UserData.email d) v (UserData.premiumSince d)
        (UserData.stripeSessionId d) (UserData.stripeSubscriptionActive d)
        (UserData.stripeCustomerId d) (UserData.savedRecipes d) (UserData.mealPlans d)
        (UserData.preferences d) (UserData.lastVerified d) (UserData.createdAt d)
        (UserData.updatedAt d) (UserData.premiumDocId d)
  | F_premiumSince v =>
      UserData.mk (UserData.username d) (UserData.email d) (UserData.isPremium d) (Some v)
        (UserData.stripeSessionId d) (UserData.stripeSubscriptionActive d)
        (UserData.stripeCustomerId d) (UserData.savedRecipes d) (UserData.mealPlans d)
        (UserData.preferences d) (UserData.lastVerified d) (UserData.createdAt d)
        (UserData.updatedAt d) (UserData.premiumDocId d)
  | F_stripeSessionId v =>
      UserData.mk (UserData.username d) (UserData.email d) (UserData.isPremium d)
        (UserData.premiumSince d) (Some v) (UserData.stripeSubscriptionActive d)
        (UserData.stripeCustomerId d) (UserData.savedRecipes d) (UserData.mealPlans d)
        (UserData.preferences d) (UserData.lastVerified d) (UserData.createdAt d)
        (UserData.updatedAt d) (UserData.premiumDocId d)
  | F_stripeSubscriptionActive v =>
      UserData.mk (UserData.username d) (UserData.email d) (UserData.isPremium d)
        (UserData.premiumSince d) (UserData.stripeSessionId d) (Some v)
        (UserData.stripeCustomerId d) (UserData.savedRecipes d) (UserData.mealPlans d)
        (UserData.preferences d) (UserData.lastVerified d) (UserData.createdAt d)
        (UserData.updatedAt d) (UserData.premiumDocId d)
  | F_stripeCustomerId v =>
      UserData.mk (UserData.username d) (UserData.email d) (UserData.isPremium d)
        (UserData.premiumSince d) (UserData.stripeSessionId d)
        (UserData.stripeSubscriptionActive d) (Some v) (UserData.savedRecipes d)
        (UserData.mealPlans d) (UserData.preferences d) (UserData.lastVerified d)
        (UserData.createdAt d) (UserData.updatedAt d) (UserData.premiumDocId d)
  | F_savedRecipes v =>
      UserData.mk (UserData.username d) (UserData.email d) (UserData.isPremium d)
        (UserData.premiumSince d) (UserData.stripeSessionId d)
        (UserData.stripeSubscriptionActive d) (UserData.stripeCustomerId d) v
        (UserData.mealPlans d) (UserData.preferences d) (UserData.lastVerified d)
        (UserData.createdAt d) (UserData.updatedAt d) (UserData.premiumDocId d)
  | F_mealPlans v =>
      UserData.mk (UserData.username d) (UserData.email d) (UserData.isPremium d)
        (UserData.premiumSince d) (UserData.stripeSessionId d)
        (UserData.stripeSubscriptionActive d) (UserData.stripeCustomerId d)
        (UserData.savedRecipes d) v (UserData.preferences d) (UserData.lastVerified d)
        (UserData.createdAt d) (UserData.updatedAt d) (UserData.premiumDocId d)
  | F_preferences v =>
      UserData.mk (UserData.username d) (UserData.email d) (UserData.isPremium d)
        (UserData.premiumSince d) (UserData.stripeSessionId d)
        (UserData.stripeSubscriptionActive d) (UserData.stripeCustomerId d)
        (UserData.savedRecipes d) (UserData.mealPlans d) v (UserData.lastVerified d)
        (UserData.createdAt d) (UserData.updatedAt d) (UserData.premiumDocId d)
  | F_lastVerified v =>
      UserData.mk (UserData.username d) (UserData.email d) (UserData.isPremium d)
        (UserData.premiumSince d) (UserData.stripeSessionId d)
        (UserData.stripeSubscriptionActive d) (UserData.stripeCustomerId d)
        (UserData.savedRecipes d) (UserData.mealPlans d) (UserData.preferences d) (Some v)
        (UserData.createdAt d) (UserData.updatedAt d) (UserData.premiumDocId d)
  | F_createdAt v =>
      UserData.mk (UserData.username d) (UserData.email d) (UserData.isPremium d)
        (UserData.premiumSince d) (UserData.stripeSessionId d)
        (UserData.stripeSubscriptionActive d) (UserData.stripeCustomerId d)
        (UserData.savedRecipes d) (UserData.mealPlans d) (UserData.preferences d)
        (UserData.lastVerified d) v (UserData.updatedAt d) (UserData.premiumDocId d)
  | F_updatedAt v =>
      UserData.mk (UserData.username d) (UserData.email d) (UserData.isPremium d)
        (UserData.premiumSince d) (UserData.stripeSessionId d)
        (UserData.stripeSubscriptionActive d) (UserData.stripeCustomerId d)
        (UserData.savedRecipes d) (UserData.mealPlans d) (UserData.preferences d)
        (UserData.lastVerified d) (UserData.createdAt d) v (UserData.premiumDocId d)
  end.

(** The fields [updateUserData] passes to [updateDoc]:
    [{ ...data, updatedAt }].  [data] lists the properties of the argument in
    the order they were set, each key once. *)
Definition patchedFields (data : list Field) (updatedAt : Timestamp)
    (d : UserData.t) : UserData.t :=
  setField (F_updatedAt updatedAt) (fold_left (fun d f => setField f d) data d).

(** The [try] block of [updateUserData]; [Object.keys(data)] is the list of
    the keys of [data]. *)
Definition updateUserData_try (userId : string) (data : list Field) : M unit :=
  updatedAt ← now;
  updateDoc_users userId (patchedFields data updatedAt);;
  timestamp ← now;
  logAnalyticsEvent "user_data_updated"
    [("userId", PStr userId); ("updatedFields", PKeys (fieldKey <$> data));
     ("timestamp", PTime timestamp)].

Definition updateUserData (userId : string) (data : list Field) : M unit :=
  try_catch (updateUserData_try userId data)
    (fun _ => throw (newError "Failed to update user data. Please try again.")).

(** ** Meal plans *)

Module Analytics.
(** Modelled from the spec: the generation client imports [logAnalyticsEvent]
    from [./analytics], which is not among the sources.  The spec's analytics
    sink takes fire-and-forget named events with a parameter map, "failures
    are caught and logged, never propagated"; that is the helper of the same
    name which the sources define next to the Firebase setup. *)
Definition logAnalyticsEvent (eventName : string) (eventParams : list (string * Param)) : M unit :=
  logAnalyticsEvent eventName eventParams.
End Analytics.

(** [openai.chat.completions.create(...)]: the endpoint answers with the next
    completion it has in store, whatever the request says. *)
Definition chat_completions_create : M ChatCompletion :=
  external (fun w =>
    match completions w with
    | c :: cs => (Return c, set_completions cs w)
    | [] => (Throw (ErrorObj None "Connection error."), w)
    end).

(** [completion.choices[0].message.content] *)
Definition firstMessageContent (completion : ChatCompletion) : M (option string) :=
  match choices completion with
  | content :: _ => mret content
  | [] => throw (ErrorObj None "Cannot read properties of undefined (reading 'message')")
  end.

(** [value.key]; [None] is [undefined]. *)
Definition getProperty (key : string) (value : json) : M (option json) :=
  match value with
  | JNull => throw (ErrorObj None "Cannot read properties of null")
  | JObj fields => mret (snd <$> List.find (fun kv => String.eqb (fst kv) key) fields)
  | _ => mret None
  end.

(** [!value] is [negb (truthy value)]. *)
Definition truthy (value : option json) : bool :=
  match value with
  | None | Some JNull => false
  | Some (JBool b) => b
  | Some (JNum n) => negb (n =? 0)%Z
  | Some (JStr s) => negb (s =? "")
  | Some (JArr _) | Some (JObj _) => true
  end.

(** [Array.isArray(value)] *)
Definition isArray (value : option json) : bool :=
  match value with
  | Some (JArr _) => true
  | _ => false
  end.

Section Generation.

(** [JSON.parse]; [None] when it throws a [SyntaxError]. *)
Variable JSON_parse : string -> option json.

(** [JSON.parse(content)]; a [null] content is read as the text [null]. *)
Definition parseContent (content : option string) : M json :=
  match JSON_parse (default "null" content) with
  | Some v => mret v
  | None => throw (ErrorObj None "Unexpected token in JSON")
  end.

(** The [try] block of [generateMealPlan]; it returns [response.weeklyPlan]. *)
Definition generateMealPlan_try : M (option json) :=
  completion ← chat_completions_create;
  content ← firstMessageContent completion;
  response ← parseContent content;
  timestamp ← now;
  Analytics.logAnalyticsEvent "meal_plan_generated" [("timestamp", PTime timestamp)];;
  weeklyPlan ← getProperty "weeklyPlan" response;
  if negb (truthy weeklyPlan) || negb (isArray weeklyPlan)
  then throw (newError "Invalid meal plan format received")
  else mret weeklyPlan.

(** The [catch] block of [generateMealPlan]. *)
Definition generateMealPlan_catch {A : Type} (error : Thrown) : M A :=
  timestamp ← now;
  Analytics.logAnalyticsEvent "meal_plan_generation_error"
    [("error", PStr (messageOrUnknown error)); ("timestamp", PTime timestamp)];;
  throw (newError "Failed to generate meal plan. Please try again.").

Definition generateMealPlan : M (option json) :=
  _ ← now;
  try_catch generateMealPlan_try generateMealPlan_catch.

End Generation.

(** ** Recipes and shopping lists *)

Section Recipes.

(** [JSON.parse], as for the meal plans. *)
Variable JSON_parse : string -> option json.

(** The type [Ingredient] of [../types/recipe], which is not among the
    sources, with its [name]. *)
Variable Ingredient : Type.
Variable Ingredient_name : Ingredient -> string.

(** [ingredients.map(ing => ing.name).join(', ')] *)
Definition ingredientList (ingredients : list Ingredient) : string :=
  String.concat ", " (Ingredient_name <$> ingredients).

(** The [try] block of [generateRecipe].  The request carries
    [ingredientList ingredients]; the answer of the endpoint does not depend
    on the request. *)
Definition generateRecipe_try (ingredients : list Ingredient) : M json :=
  completion ← chat_completions_create;
  content ← firstMessageContent completion;
  recipe ← parseContent JSON_parse content;
  timestamp ← now;
  Analytics.logAnalyticsEvent "recipe_generated"
    [("ingredientCount", PNum (length ingredients)); ("timestamp", PTime timestamp)];;
  mret recipe.

(** The [catch] block of [generateRecipe]. *)
Definition generateRecipe_catch {A : Type} (error : Thrown) : M A :=
  timestamp ← now;
  Analytics.logAnalyticsEvent "recipe_generation_error"
    [("error", PStr (messageOrUnknown error)); ("timestamp", PTime timestamp)];;
  throw error.

Definition generateRecipe (ingredients : list Ingredient) : M json :=
  _ ← now;
  try_catch (generateRecipe_try ingredients) generateRecipe_catch.

(** The [try] block of [generateCustomRecipe]; the success event is logged
    before the content of the first choice is read. *)
Definition generateCustomRecipe_try : M (option string) :=
  completion ← chat_completions_create;
  timestamp ← now;
  Analytics.logAnalyticsEvent "custom_recipe_generated" [("timestamp", PTime timestamp)];;
  firstMessageContent completion.

(** The [catch] block of [generateCustomRecipe]. *)
Definition generateCustomRecipe_catch {A : Type} (error : Thrown) : M A :=
  timestamp ← now;
  Analytics.logAnalyticsEvent "custom_recipe_generation_error"
    [("error", PStr (messageOrUnknown error)); ("timestamp", PTime timestamp)];;
  throw error.

(** [generateCustomRecipe(prompt)]; the prompt goes into the request only. *)
Definition generateCustomRecipe (prompt : string) : M (option string) :=
  _ ← now;
  try_catch generateCustomRecipe_try generateCustomRecipe_catch.

(** The [try] block of [generateShoppingList]; it returns
    [response.shoppingList]. *)
Definition generateShoppingList_try (meals : list string) : M (option json) :=
  completion ← chat_completions_create;
  content ← firstMessageContent completion;
  response ← parseContent JSON_parse content;
  timestamp ← now;
  Analytics.logAnalyticsEvent "shopping_list_generated"
    [("mealCount", PNum (length meals)); ("timestamp", PTime timestamp)];;
  shoppingList ← getProperty "shoppingList" response;
  if negb (truthy shoppingList) || negb (isArray shoppingList)
  then throw (newError "Invalid shopping list format received")
  else mret shoppingList.

(** The [catch] block of [generateShoppingList]. *)
Definition generateShoppingList_catch {A : Type} (error : Thrown) : M A :=
  timestamp ← now;
  Analytics.logAnalyticsEvent "shopping_list_generation_error"
    [("error", PStr (messageOrUnknown error)); ("timestamp", PTime timestamp)];;
  throw (newError "Failed to generate shopping list. Please try again.").

Definition generateShoppingList (meals : list string) : M (option json) :=
  _ ← now;
  try_catch (generateShoppingList_try meals) generateShoppingList_catch.

End Recipes.

(** * Specification vocabulary *)

(** [wp m Q w]: running [m] from [w] ends in an outcome and a world that
    satisfy [Q].  Statements are functions, so this is [Q] at the result. *)
Definition wp {A : Type} (m : M A) (Q : Outcome A -> World -> Prop) (w : World) : Prop :=
  Q (m w).1 (m w).2.

(** [Q] holds when the next call into a hosted service throws. *)
Definition throwsAt {A : Type} (w : World) (Q : Outcome A -> World -> Prop) : Prop :=
  ∀ e fs, faults w = Some e :: fs -> Q (Throw e) (set_faults fs w).

(** The value of a run that returned. *)
Definition returned {A : Type} (o : Outcome A) : option A :=
  match o with
  | Return a => Some a
  | Throw _ => None
  end.

(** What a query on [premiumUsers] finds, as the boolean the code tests. *)
Definition queryNonEmpty (q : PremiumUser.t -> bool) (pm : gmap string PremiumUser.t) : bool :=
  negb (bool_decide (List.filter (fun d => q (snd d)) (map_to_list pm) = [])).

(** Some subscription record has this email, is [active] and has
    [stripeSubscriptionActive]. *)
Definition hasActiveSubscription (email : string) (pm : gmap string PremiumUser.t) : Prop :=
  ∃ id d, pm !! id = Some d ∧ PremiumUser.email d = email
          ∧ PremiumUser.active d = true ∧ PremiumUser.stripeSubscriptionActive d = true.

(** Every profile belongs to an account of the identity provider. *)
Definition profilesHaveAccounts (w : World) : Prop :=
  dom (users w) ⊆ dom (accounts w).

(** A run from [w] to [w'] keeps the accounts and the keys of the profiles. *)
Definition keepsProfileKeys (w w' : World) : Prop :=
  dom (users w') = dom (users w) ∧ accounts w' = accounts w.

(** The link between the result [r] of a run of [verifyPremiumStatus] from
    [w] and the world [w'] it leaves: a run without [error] has rewritten the
    profile from the query, a run with one has left the profiles alone. *)
Definition verified (userId : string) (w : World) (r : Verification.t) (w' : World) : Prop :=
  premiumUsers w' = premiumUsers w ∧ accounts w' = accounts w
  ∧ currentUser w' = currentUser w ∧ completions w' = completions w
  ∧ (faults w = [] -> faults w' = [])
  ∧ match Verification.error r with
    | None =>
        ∃ p, users w !! userId = Some p
          ∧ Verification.isPremium r
            = queryNonEmpty (activeSubscriptionOf (toLowerCase (UserData.email p)))
                            (premiumUsers w)
          ∧ users w'
            = <[userId := verifiedFields (Verification.isPremium r) (clock w) (S (clock w)) p]>
                (users w)
    | Some message =>
        Verification.isPremium r = false ∧ users w' = users w
        ∧ (faults w = [] -> users w !! userId = None ∧ message = "User not found")
    end.

(** The link between a run of [addPremiumUser] from [w] and the world [w']
    it leaves. *)
Definition granted (email : string) (w : World) (o : Outcome bool) (w' : World) : Prop :=
  (o = Return true ∨ ∃ e, o = Throw e)
  ∧ (o = Return true ->
     ∃ userId p', currentUser w = Some userId ∧ currentUser w' = Some userId
       ∧ users w' !! userId = Some p'
       ∧ UserData.email p' = toLowerCase email
       ∧ hasActiveSubscription (toLowerCase email) (premiumUsers w'))
  ∧ (faults w = [] -> email ≠ "" ->
     ∀ userId, currentUser w = Some userId -> is_Some (users w !! userId) ->
     o = Return true ∧ faults w' = []).

(** [response.weeklyPlan] when the read does not throw; [None] is
    [undefined]. *)
Definition weeklyPlanOf (response : json) : option json :=
  match response with
  | JObj fields => snd <$> List.find (fun kv => String.eqb (fst kv) "weeklyPlan") fields
  | _ => None
  end.

(** What [generateMealPlan] throws. *)
Definition mealPlanFailure : Thrown :=
  newError "Failed to generate meal plan. Please try again.".

(** One of the next [n] calls into a hosted service throws. *)
Definition failsWithin (n : nat) (w : World) : Prop :=
  ∃ k e, k < n ∧ faults w !! k = Some (Some e).

(** ** Vocabulary for the other operations *)

(** The account [signInWithEmailAndPassword] signs in. *)
Definition accountFor (email password : string) (w : World) : option string :=
  fst <$> List.find (fun ua => (Account.email (snd ua) =? toLowerCase email)
                               && (Account.password (snd ua) =? password))
                    (map_to_list (accounts w)).

(** The generic message of [getAuthErrorMessage]. *)
Definition genericAuthFailure : Thrown :=
  newError "An error occurred. Please try again.".

(** What [signOutUser] throws. *)
Definition signOutFailure : Thrown :=
  newError "Failed to sign out. Please try again.".

(** What [updateUserData] throws. *)
Definition updateFailure : Thrown :=
  newError "Failed to update user data. Please try again.".

(** What [generateShoppingList] throws. *)
Definition shoppingListFailure : Thrown :=
  newError "Failed to generate shopping list. Please try again.".

(** [response.shoppingList] when the read does not throw. *)
Definition shoppingListOf (response : json) : option json :=
  match response with
  | JObj fields => snd <$> List.find (fun kv => String.eqb (fst kv) "shoppingList") fields
  | _ => None
  end.

(** [d[key]]: the property [key] of a stored profile with its value;
    [None] when the document does not have it. *)
Definition getField (key : string) (d : UserData.t) : option Field :=
  if key =? "username" then Some (F_username (UserData.username d))
  else if key =? "email" then Some (F_email (UserData.email d))
  else if key =? "isPremium" then Some (F_isPremium (UserData.isPremium d))
  else if key =? "premiumSince" then F_premiumSince <$> UserData.premiumSince d
  else if key =? "stripeSessionId" then F_stripeSessionId <$> UserData.stripeSessionId d
  else if key =? "stripeSubscriptionActive"
  then F_stripeSubscriptionActive <$> UserData.stripeSubscriptionActive d
  else if key =? "stripeCustomerId" then F_stripeCustomerId <$> UserData.stripeCustomerId d
  else if key =? "savedRecipes" then Some (F_savedRecipes (UserData.savedRecipes d))
  else if key =? "mealPlans" then Some (F_mealPlans (UserData.mealPlans d))
  else if key =? "preferences" then Some (F_preferences (UserData.preferences d))
  else if key =? "lastVerified" then F_lastVerified <$> UserData.lastVerified d
  else if key =? "createdAt" then Some (F_createdAt (UserData.createdAt d))
  else if key =? "updatedAt" then Some (F_updatedAt (UserData.updatedAt d))
  else None.

(** The stored data that only the account operations touch. *)
Definition sameStore (w w' : World) : Prop :=
  users w' = users w ∧ premiumUsers w' = premiumUsers w
  ∧ accounts w' = accounts w ∧ currentUser w' = currentUser w.

(** No two subscription records have the same email. *)
Definition oneRecordPerEmail (pm : gmap string PremiumUser.t) : Prop :=
  ∀ id1 id2 d1 d2, pm !! id1 = Some d1 -> pm !! id2 = Some d2 ->
    PremiumUser.email d1 = PremiumUser.email d2 -> id1 = id2.

(** An account of the provider that has no profile, and is the only account
    of its email. *)
Definition stranded (email password uid : string) (w : World) : Prop :=
  (∃ a, accounts w !! uid = Some a ∧ Account.email a = toLowerCase email
        ∧ Account.password a = password)
  ∧ users w !! uid = None
  ∧ ∀ uid' a', accounts w !! uid' = Some a' ->
      Account.email a' = toLowerCase email -> uid' = uid.

(** ** Sample worlds *)

Definition emptyWorld : World := mkWorld ∅ ∅ ∅ None 0 [] [] [].

Definition sampleProfile (email : string) (isPremium : bool) : UserData.t :=
  newUserData "ann" email isPremium 1 2.

Definition sampleSubscription (email : string) : PremiumUser.t :=
  PremiumUser.mk email "u1" true true 3 4.

(** A profile whose email was stored in upper case. *)
Definition upperCaseProfile : UserData.t :=
  UserData.mk "ann" "USER@EXAMPLE.COM" false None None None None [] []
    {| dietaryRestrictions := []; servingSize := 2; theme := light |} None 1 2 None.

(** That profile, and an active subscription record under the lower-case
    email. *)
Definition subscribedWorld : World :=
  mkWorld {["u1" := upperCaseProfile]}
          {["p1" := sampleSubscription "user@example.com"]}
          {["u1" := Account.mk "user@example.com" "secret" (Some "ann")]}
          (Some "u1") 10 [] [] [].

(** What Firestore throws when it cannot be reached. *)
Definition offline : Thrown :=
  ErrorObj (Some "unavailable") "Failed to get document because the client is offline.".

(** The store answers the read of the profile ([getDoc]) and fails on the
    query ([getDocs]). *)
Definition outageWorld : World :=
  set_faults [None; Some offline] subscribedWorld.

(** The services answer the four calls of one verification ([getDoc],
    [getDocs], [updateDoc], [logEvent]) and the store fails on the next
    read. *)
Definition outageAfterFirstWorld : World :=
  set_faults [None; None; None; None; Some offline] subscribedWorld.

(** A signed-in account with a profile and no subscription record. *)
Definition signedUpWorld : World :=
  (createUser "ann@example.com" "secret1" "ann" emptyWorld).2.

(** The services answer the nine calls of a grant ([getDoc], [getDocs],
    [setDoc], [updateDoc], [logEvent] and the four of its closing
    verification) and the store fails on the next read. *)
Definition outageAfterGrantWorld : World :=
  set_faults (replicate 9 None ++ [Some offline])%list signedUpWorld.


(** An active subscription record waits for an email that has no account. *)
Definition prepaidWorld : World :=
  mkWorld ∅ {["p1" := sampleSubscription "user@example.com"]} ∅ None 0 [] [] [].

(** The double quote, and two answers of the endpoint: an object without
    [weeklyPlan], and one whose [weeklyPlan] is a number. *)
Definition dquote : string := String (ascii_of_nat 34) "".

Definition answerWithoutPlan : string := "{" ++ dquote ++ "meals" ++ dquote ++ ": []}".

Definition answerWithNumber : string := "{" ++ dquote ++ "weeklyPlan" ++ dquote ++ ": 7}".

(** [JSON.parse] on these two answers. *)
Definition sampleParse (s : string) : option json :=
  if s =? answerWithoutPlan then Some (JObj [("meals", JArr [])])
  else if s =? answerWithNumber then Some (JObj [("weeklyPlan", JNum 7)])
  else None.

(** The endpoint has one completion in store, with this content. *)
Definition answeringWorld (content : string) : World :=
  mkWorld ∅ ∅ ∅ None 0 [] [Build_ChatCompletion [Some content]] [].

(** A signed-in premium account: the sample account after its grant. *)
Definition premiumWorld : World :=
  (addPremiumUser "ann@example.com" signedUpWorld).2.

(** The sign-in goes through and the first read of the verification fails. *)
Definition outageAtSignInWorld : World :=
  set_faults [None; Some offline] premiumWorld.

(** The services answer the three calls of [createUser] that come before
    the write of the profile, and the write fails. *)
Definition profileWriteFailsWorld : World :=
  set_faults [None; None; None; Some offline] emptyWorld.

(** The account that the failed creation leaves. *)
Definition strandedWorld : World :=
  (createUser "ann@example.com" "secret1" "ann" profileWriteFailsWorld).2.

(** The services answer the three calls of a grant that come before the
    write of the profile, and the write fails. *)
Definition grantWriteFailsWorld : World :=
  set_faults [None; None; None; Some offline] signedUpWorld.

(** The read of a forced refresh goes through and the first read of its
    verification fails. *)
Definition outageAtRefreshWorld : World :=
  set_faults [None; Some offline] premiumWorld.

(** * Reasoning about statements *)

Section WP.
Context {A : Type}.
Implicit Types (Q : Outcome A -> World -> Prop) (w : World).

Lemma wp_run (m : M A) Q w o w' : m w = (o, w') -> wp m Q w -> Q o w'.
Proof. unfold wp. by intros ->. Qed.

Lemma wp_mono (m : M A) (P : Outcome A -> World -> Prop) Q w :
  wp m P w -> (∀ o w', P o w' -> Q o w') -> wp m Q w.
Proof. unfold wp. auto. Qed.

Lemma wp_ret (a : A) Q w : Q (Return a) w -> wp (mret a) Q w.
Proof. done. Qed.

Lemma wp_throw e Q w : Q (Throw e) w -> wp (throw e) Q w.
Proof. done. Qed.

Lemma wp_try_catch (body : M A) handler Q w :
  wp body (fun o w1 => match o with
                       | Return a => Q (Return a) w1
                       | Throw e => wp (handler e) Q w1
                       end) w ->
  wp (try_catch body handler) Q w.
Proof. unfold wp, try_catch. by destruct (body w) as [[a|e] w1]. Qed.

Lemma wp_external (op : M A) Q w :
  throwsAt w Q ->
  (∀ fs, (faults w = [] -> fs = []) -> wp op Q (set_faults fs w)) ->
  wp (external op) Q w.
Proof.
  intros Hthrow Hgo. unfold wp, external in *.
  destruct (faults w) as [|[e|] fs] eqn:Hf.
  - specialize (Hgo [] (fun _ => eq_refl)).
    replace (set_faults [] w) with w in Hgo; [done|].
    destruct w; cbn in *; by subst.
  - by apply Hthrow.
  - by apply Hgo.
Qed.

End WP.

Lemma wp_bind {A B : Type} (m : M A) (k : A -> M B) (Q : Outcome B -> World -> Prop) w :
  wp m (fun o w1 => match o with
                    | Return a => wp (k a) Q w1
                    | Throw e => Q (Throw e) w1
                    end) w ->
  wp (m ≫= k) Q w.
Proof. unfold wp, mbind, M_bind. by destruct (m w) as [[a|e] w1]. Qed.

Lemma wp_now (Q : Outcome Timestamp -> World -> Prop) w :
  Q (Return (clock w)) (set_clock (S (clock w)) w) -> wp now Q w.
Proof. done. Qed.

Ltac world_simpl :=
  cbn [users premiumUsers accounts currentUser clock events completions faults
       set_users set_premiumUsers set_accounts set_currentUser set_clock set_events
       set_completions set_faults fst snd] in *.

Ltac wp_external_op :=
  intros Hthrow Hgo; apply wp_external;
  [exact Hthrow
  |let fs := fresh "fs" in let Hfs := fresh "Hfs" in
   intros fs Hfs; specialize (Hgo fs Hfs); unfold wp; world_simpl;
   repeat case_match; simplify_eq; world_simpl; done].

Section Primitives.
Context (w : World).

Lemma wp_getDoc_users userId Q :
  throwsAt w Q ->
  (∀ fs, (faults w = [] -> fs = []) -> Q (Return (users w !! userId)) (set_faults fs w)) ->
  wp (getDoc_users userId) Q w.
Proof. wp_external_op. Qed.

Lemma wp_updateDoc_users userId fields Q :
  throwsAt w Q ->
  (∀ fs, (faults w = [] -> fs = []) ->
     match users w !! userId with
     | Some d => Q (Return tt) (set_users (insert userId (fields d)) (set_faults fs w))
     | None => Q (Throw (ErrorObj (Some "not-found") "No document to update")) (set_faults fs w)
     end) ->
  wp (updateDoc_users userId fields) Q w.
Proof. wp_external_op. Qed.

Lemma wp_setDoc_users userId data Q :
  throwsAt w Q ->
  (∀ fs, (faults w = [] -> fs = []) ->
     Q (Return tt) (set_users (insert userId data) (set_faults fs w))) ->
  wp (setDoc_users userId data) Q w.
Proof. wp_external_op. Qed.

Lemma wp_getDocs_premiumUsers q Q :
  throwsAt w Q ->
  (∀ fs, (faults w = [] -> fs = []) ->
     Q (Return (List.filter (fun d => q (snd d)) (map_to_list (premiumUsers w))))
       (set_faults fs w)) ->
  wp (getDocs_premiumUsers q) Q w.
Proof. wp_external_op. Qed.

Lemma wp_updateDoc_premiumUsers id fields Q :
  throwsAt w Q ->
  (∀ fs, (faults w = [] -> fs = []) ->
     match premiumUsers w !! id with
     | Some d => Q (Return tt) (set_premiumUsers (insert id (fields d)) (set_faults fs w))
     | None => Q (Throw (ErrorObj (Some "not-found") "No document to update")) (set_faults fs w)
     end) ->
  wp (updateDoc_premiumUsers id fields) Q w.
Proof. wp_external_op. Qed.

Lemma wp_setDoc_premiumUsers id data Q :
  throwsAt w Q ->
  (∀ fs, (faults w = [] -> fs = []) ->
     Q (Return tt) (set_premiumUsers (insert id data) (set_faults fs w))) ->
  wp (setDoc_premiumUsers id data) Q w.
Proof. wp_external_op. Qed.

Lemma wp_newDocRef_premiumUsers (Q : Outcome string -> World -> Prop) :
  Q (Return (fresh (dom (premiumUsers w)))) w -> wp newDocRef_premiumUsers Q w.
Proof. done. Qed.

Lemma wp_auth_currentUser (Q : Outcome (option string) -> World -> Prop) :
  Q (Return (currentUser w)) w -> wp auth_currentUser Q w.
Proof. done. Qed.

Lemma wp_createUserWithEmailAndPassword email password Q :
  throwsAt w Q ->
  (∀ fs, (faults w = [] -> fs = []) ->
     if registered email w
     then Q (Throw (ErrorObj (Some "auth/email-already-in-use")
                             "Firebase: Error (auth/email-already-in-use)."))
            (set_faults fs w)
     else Q (Return (fresh (dom (accounts w))))
            (set_currentUser (Some (fresh (dom (accounts w))))
               (set_accounts
                  (insert (fresh (dom (accounts w)))
                          (Account.mk (toLowerCase email) password None))
                  (set_faults fs w)))) ->
  wp (createUserWithEmailAndPassword email password) Q w.
Proof.
  intros Hthrow Hgo. apply wp_external; [exact Hthrow|].
  intros fs Hfs. specialize (Hgo fs Hfs). unfold wp, registered in *. world_simpl.
  by case_match.
Qed.

Lemma wp_updateProfile uid displayName Q :
  throwsAt w Q ->
  (∀ fs, (faults w = [] -> fs = []) ->
     match accounts w !! uid with
     | Some a =>
         Q (Return tt)
           (set_accounts
              (insert uid (Account.mk (Account.email a) (Account.password a) (Some displayName)))
              (set_faults fs w))
     | None => Q (Throw (ErrorObj (Some "auth/user-not-found")
                                  "Firebase: Error (auth/user-not-found)."))
                 (set_faults fs w)
     end) ->
  wp (updateProfile uid displayName) Q w.
Proof. wp_external_op. Qed.

Lemma wp_chat_completions_create Q :
  throwsAt w Q ->
  (∀ fs, (faults w = [] -> fs = []) ->
     match completions w with
     | c :: cs => Q (Return c) (set_completions cs (set_faults fs w))
     | [] => Q (Throw (ErrorObj None "Connection error.")) (set_faults fs w)
     end) ->
  wp chat_completions_create Q w.
Proof. wp_external_op. Qed.

(** The analytics helper never throws and leaves the stored data alone. *)
Lemma wp_logAnalyticsEvent name params (Q : Outcome unit -> World -> Prop) :
  (∀ w', users w' = users w -> premiumUsers w' = premiumUsers w ->
         accounts w' = accounts w -> currentUser w' = currentUser w ->
         clock w' = clock w -> completions w' = completions w ->
         (faults w = [] -> faults w' = []) ->
         Q (Return tt) w') ->
  wp (logAnalyticsEvent name params) Q w.
Proof.
  intros HQ. unfold logAnalyticsEvent, logEvent.
  apply wp_try_catch, wp_external.
  - intros e fs Hf. apply wp_ret, HQ; try done. by rewrite Hf.
  - intros fs Hfs. apply HQ; done.
Qed.

End Primitives.

Ltac intro_throw :=
  let e := fresh "e" in let fs := fresh "fs" in let H := fresh "Hfault" in
  intros e fs H.

Ltac intro_go :=
  let fs := fresh "fs" in let H := fresh "Hquiet" in
  intros fs H.

Ltac intro_logged :=
  let w := fresh "w" in
  let Hu := fresh "Husers" in let Hp := fresh "Hpremium" in let Ha := fresh "Haccounts" in
  let Hc := fresh "Hcurrent" in let Hk := fresh "Hclock" in let Hm := fresh "Hcompletions" in
  let Hf := fresh "Hquiet" in
  intros w Hu Hp Ha Hc Hk Hm Hf.

Ltac wp_step :=
  match goal with
  | |- wp (mbind _ _) _ _ => apply wp_bind
  | |- wp (try_catch _ _) _ _ => apply wp_try_catch
  | |- wp (mret _) _ _ => apply wp_ret
  | |- wp (throw _) _ _ => apply wp_throw
  | |- wp now _ _ => apply wp_now
  | |- wp (logAnalyticsEvent _ _) _ _ =>
      apply wp_logAnalyticsEvent; intro_logged
  | |- wp (getDoc_users _) _ _ => apply wp_getDoc_users; [intro_throw|intro_go]
  | |- wp (updateDoc_users _ _) _ _ => apply wp_updateDoc_users; [intro_throw|intro_go]
  | |- wp (setDoc_users _ _) _ _ => apply wp_setDoc_users; [intro_throw|intro_go]
  | |- wp (getDocs_premiumUsers _) _ _ => apply wp_getDocs_premiumUsers; [intro_throw|intro_go]
  | |- wp (updateDoc_premiumUsers _ _) _ _ =>
      apply wp_updateDoc_premiumUsers; [intro_throw|intro_go]
  | |- wp (setDoc_premiumUsers _ _) _ _ => apply wp_setDoc_premiumUsers; [intro_throw|intro_go]
  | |- wp newDocRef_premiumUsers _ _ => apply wp_newDocRef_premiumUsers
  | |- wp auth_currentUser _ _ => apply wp_auth_currentUser
  | |- wp (createUserWithEmailAndPassword _ _) _ _ =>
      apply wp_createUserWithEmailAndPassword; [intro_throw|intro_go]
  | |- wp (updateProfile _ _) _ _ => apply wp_updateProfile; [intro_throw|intro_go]
  | |- wp chat_completions_create _ _ =>
      apply wp_chat_completions_create; [intro_throw|intro_go]
  end; world_simpl.

Ltac wp_steps := repeat (wp_step || (case_match; simplify_eq)).

(** ** Lower-casing and subscription queries *)

Lemma toLowerCaseChar_idem c : toLowerCaseChar (toLowerCaseChar c) = toLowerCaseChar c.
Proof. destruct c as [[] [] [] [] [] [] [] []]; reflexivity. Qed.

Lemma toLowerCase_idem s : toLowerCase (toLowerCase s) = toLowerCase s.
Proof. induction s as [|c s IH]; cbn; [done|]. by rewrite toLowerCaseChar_idem, IH. Qed.

Lemma queryNonEmpty_true q (pm : gmap string PremiumUser.t) :
  queryNonEmpty q pm = true ↔ ∃ id d, pm !! id = Some d ∧ q d = true.
Proof.
  unfold queryNonEmpty. rewrite negb_true_iff, bool_decide_eq_false. split.
  - intros Hne. destruct (List.filter _ _) as [|[id d] l] eqn:E; [done|].
    assert (Hin : In (id, d) (List.filter (fun d => q (snd d)) (map_to_list pm)))
      by (rewrite E; left; reflexivity).
    apply filter_In in Hin as [Hin Hq]. apply list_elem_of_In, elem_of_map_to_list in Hin.
    eauto.
  - intros (id & d & Hl & Hq) E.
    assert (Hin : In (id, d) (List.filter (fun d => q (snd d)) (map_to_list pm))).
    { apply filter_In. split; [|done]. by apply list_elem_of_In, elem_of_map_to_list. }
    by rewrite E in Hin.
Qed.

Lemma activeSubscriptionOf_true email d :
  activeSubscriptionOf email d = true ↔
  PremiumUser.email d = email ∧ PremiumUser.active d = true
  ∧ PremiumUser.stripeSubscriptionActive d = true.
Proof.
  unfold activeSubscriptionOf.
  rewrite !andb_true_iff, String.eqb_eq, !Bool.eqb_true_iff. tauto.
Qed.

Lemma queryNonEmpty_active email pm :
  queryNonEmpty (activeSubscriptionOf email) pm = true ↔ hasActiveSubscription email pm.
Proof.
  rewrite queryNonEmpty_true. unfold hasActiveSubscription.
  split; intros (id & d & Hl & H); exists id, d; (split; [done|]);
    by apply activeSubscriptionOf_true.
Qed.

Lemma verifyPremiumStatus_wp userId w :
  wp (verifyPremiumStatus userId)
     (fun o w' => ∃ r, o = Return r ∧ verified userId w r w') w.
Proof.
  unfold verifyPremiumStatus, verifyPremiumStatus_try, verifyPremiumStatus_catch.
  wp_steps; (eexists; split; [reflexivity|]); unfold verified; cbn [Verification.error Verification.isPremium].
  all: try (repeat split; try congruence; naive_solver).
Qed.

Lemma verifyPremiumStatus_returns userId w :
  ∃ r w', verifyPremiumStatus userId w = (Return r, w') ∧ verified userId w r w'.
Proof.
  destruct (verifyPremiumStatus userId w) as [o w'] eqn:E.
  destruct (wp_run _ _ _ _ _ E (verifyPremiumStatus_wp userId w)) as (r & -> & Hv).
  eauto.
Qed.

Lemma verified_run userId w r w' :
  verifyPremiumStatus userId w = (Return r, w') -> verified userId w r w'.
Proof.
  intros E. destruct (wp_run _ _ _ _ _ E (verifyPremiumStatus_wp userId w)) as (r' & [= <-] & Hv).
  done.
Qed.

Lemma filter_head_lookup (q : PremiumUser.t -> bool) (pm : gmap string PremiumUser.t) id d l :
  List.filter (fun d => q (snd d)) (map_to_list pm) = (id, d) :: l ->
  pm !! id = Some d ∧ q d = true.
Proof.
  intros E.
  assert (Hin : In (id, d) (List.filter (fun d => q (snd d)) (map_to_list pm)))
    by (rewrite E; left; reflexivity).
  apply filter_In in Hin as [Hin Hq]. by apply list_elem_of_In, elem_of_map_to_list in Hin.
Qed.

Ltac wp_verify r Hv :=
  eapply wp_mono; [apply verifyPremiumStatus_wp|];
  let o := fresh "o" in let w' := fresh "w" in
  intros o w' (r & -> & Hv).

Ltac no_fault :=
  unfold not; intros;
  repeat match goal with
         | H : ?x = [] -> _, H' : ?x = [] |- _ => specialize (H H')
         end;
  simplify_eq; try congruence; try done.

Ltac granted_throw :=
  unfold granted; split; [eauto|]; split; [done|];
  intros; simplify_eq;
  try match goal with H : is_Some _ |- _ => destruct H end;
  no_fault; naive_solver.

Lemma addPremiumUser_wp email w : wp (addPremiumUser email) (granted email w) w.
Proof.
  unfold addPremiumUser, addPremiumUser_try.
  case_bool_decide as Hemail.
  { wp_step. granted_throw. }
  wp_step. wp_step. wp_step.
  destruct (currentUser w) as [userId|] eqn:Hcur.
  2:{ wp_steps. granted_throw. }
  wp_step. wp_step.
  { wp_step. granted_throw. }
  destruct (users w !! userId) as [p|] eqn:Hp.
  2:{ wp_steps. granted_throw. }
  wp_step. wp_step.
  { wp_step. granted_throw. }
  wp_step.
  eapply (wp_mono _ (fun o w1 =>
            match o with
            | Return id =>
                currentUser w1 = Some userId ∧ users w1 = users w
                ∧ (∃ d, premiumUsers w1 !! id = Some d
                        ∧ activeSubscriptionOf (toLowerCase email) d = true)
                ∧ (faults w = [] -> faults w1 = [])
            | Throw e => faults w ≠ []
            end)).
  { destruct (List.filter _ _) as [|[id d] l] eqn:Hq.
    - wp_steps; [no_fault|]. split; [done|]. split; [done|]. split; [|no_fault].
      eexists. rewrite lookup_insert_eq. split; [done|].
      apply activeSubscriptionOf_true. done.
    - apply (filter_head_lookup (fun d => PremiumUser.email d =? toLowerCase email))
        in Hq as [Hid Hd].
      apply String.eqb_eq in Hd.
      wp_steps; [no_fault|]. split; [done|]. split; [done|]. split; [|no_fault].
      eexists. rewrite lookup_insert_eq. split; [done|].
      apply activeSubscriptionOf_true. done. }
  intros [id|e] w1.
  2:{ intros Hne. wp_step. unfold granted. split; [eauto|]. split; [done|]. intros. done. }
  intros (Hcur1 & Hu1 & (d & Hd & Hact) & Hf1).
  wp_step. wp_step. wp_step. wp_step. wp_step. wp_step. wp_step. wp_step.
  { wp_step. granted_throw. }
  rewrite Hu1, Hp. wp_step. wp_step. wp_step.
  apply wp_logAnalyticsEvent. intros w' Hu' Hpm' _ Hcur' _ _ Hf'. world_simpl. wp_step.
  wp_verify r Hv.
  destruct Hv as (Hpm & _ & Hcu & _ & Hfv & Hv).
  assert (Hw'u : users w' !! userId
                 = Some (grantedFields (clock w1) (toLowerCase email) id
                           (S (clock w1)) (S (S (clock w1))) p))
    by (by rewrite Hu', lookup_insert_eq).
  assert (Hrec : premiumUsers w' !! id = Some d) by congruence.
  assert (Hq : queryNonEmpty (activeSubscriptionOf (toLowerCase (toLowerCase email)))
                 (premiumUsers w') = true).
  { apply queryNonEmpty_true. exists id, d. by rewrite toLowerCase_idem. }
  destruct (Verification.error r) as [message|].
  - destruct Hv as (-> & Hu0 & Hnf). cbn. wp_step.
    unfold granted. split; [eauto|]. split; [done|].
    intros Hnil _ _ _ _. exfalso. no_fault.
    destruct Hnf as [Hnone _]. congruence.
  - destruct Hv as (p1 & Hp1 & Hr & Hu0).
    rewrite Hw'u in Hp1. injection Hp1 as <-. cbn in Hr. rewrite Hq in Hr.
    rewrite Hr in *. cbn. unfold granted. split; [by left|]. split.
    + intros _. eexists userId, _. split; [done|]. split; [congruence|].
      split; [by rewrite Hu0, lookup_insert_eq|]. split; [done|].
      exists id, d. split; [congruence|]. by apply activeSubscriptionOf_true.
    + intros. split; [done|]. no_fault.
Qed.

(** ** Runs of [addPremiumUser], [getUserData] and [createUser] *)

Lemma granted_run email w o w' : addPremiumUser email w = (o, w') -> granted email w o w'.
Proof. intros E. exact (wp_run _ _ _ _ _ E (addPremiumUser_wp email w)). Qed.



Lemma fresh_account_has_no_profile w :
  profilesHaveAccounts w -> users w !! fresh (dom (accounts w)) = None.
Proof.
  intros Hinv. apply not_elem_of_dom. intros Hin. apply Hinv in Hin.
  by apply is_fresh in Hin.
Qed.

Lemma createUser_wp email password username w :
  profilesHaveAccounts w ->
  wp (createUser email password username)
     (fun o w' =>
        ∀ uid, o = Return uid ->
          users w !! uid = None
          ∧ ∃ createdAt updatedAt,
              users w' !! uid = Some (newUserData username email false createdAt updatedAt)) w.
Proof.
  intros Hinv. unfold createUser, createUser_try, createUser_catch.
  wp_step. wp_step. wp_step.
  { case_match; wp_step; done. }
  case_match; [case_match; wp_step; done|].
  wp_step. wp_step.
  { case_match; wp_step; done. }
  rewrite lookup_insert_eq. wp_step. wp_verify r Hv.
  destruct Hv as (_ & _ & _ & _ & _ & Hv). world_simpl.
  pose proof (fresh_account_has_no_profile w Hinv) as Hnone.
  destruct (Verification.error r) as [message|].
  2:{ destruct Hv as (p & Hp & _). congruence. }
  destruct Hv as (-> & Hu & _). cbn.
  wp_step. wp_step. wp_step. wp_step. wp_step. wp_step.
  { case_match; wp_step; done. }
  wp_step. wp_step. wp_step.
  apply wp_logAnalyticsEvent. intros w' Hu' _ _ _ _ _ _. world_simpl. wp_step.
  intros uid [= <-]. split; [done|].
  eexists _, _. by rewrite Hu', lookup_insert_eq.
Qed.

(** ** The profiles keep to the accounts *)

Lemma keepsProfileKeys_invariant w w' :
  keepsProfileKeys w w' -> profilesHaveAccounts w -> profilesHaveAccounts w'.
Proof. unfold keepsProfileKeys, profilesHaveAccounts. intros [-> ->]. done. Qed.

Lemma verified_keepsProfileKeys userId w r w' :
  verified userId w r w' -> keepsProfileKeys w w'.
Proof.
  intros (_ & Hacc & _ & _ & _ & Hv). split; [|done].
  destruct (Verification.error r).
  - destruct Hv as (_ & -> & _). done.
  - destruct Hv as (p & Hp & _ & ->). apply dom_insert_lookup_L. eauto.
Qed.

Lemma getUserData_keepsProfileKeys userId forceRefresh w :
  wp (getUserData userId forceRefresh) (fun _ w' => keepsProfileKeys w w') w.
Proof.
  unfold getUserData. wp_step. wp_step. wp_step; [by wp_step|].
  destruct (users w !! userId) as [p|] eqn:Hp; [|by wp_step; wp_step].
  destruct forceRefresh; [|by wp_step].
  wp_step. wp_verify r Hv. apply verified_keepsProfileKeys in Hv as [Hd Ha]. world_simpl.
  case_match; [|by wp_step].
  wp_steps; split; world_simpl; try done.
  rewrite dom_insert_lookup_L; [done|eauto].
Qed.

Lemma addPremiumUser_keepsProfileKeys email w :
  wp (addPremiumUser email) (fun _ w' => keepsProfileKeys w w') w.
Proof.
  unfold addPremiumUser, addPremiumUser_try.
  case_bool_decide; [by wp_step|].
  wp_step. wp_step. wp_step.
  destruct (currentUser w) as [userId|]; [|by wp_steps].
  wp_step. wp_step; [by wp_step|].
  destruct (users w !! userId) as [p|] eqn:Hp; [|by wp_steps].
  wp_step. wp_step; [by wp_step|]. wp_step.
  eapply (wp_mono _ (fun _ w1 => users w1 = users w ∧ accounts w1 = accounts w)).
  { wp_steps; done. }
  intros [id|e] w1 [Hu1 Ha1]; [|wp_step; split; congruence].
  wp_step. wp_step. wp_step. wp_step. wp_step. wp_step. wp_step. wp_step.
  { wp_step. split; world_simpl; congruence. }
  rewrite Hu1, Hp. wp_step. wp_step. wp_step.
  apply wp_logAnalyticsEvent. intros w2 Hu2 _ Ha2 _ _ _ _. world_simpl. wp_step.
  wp_verify r Hv. apply verified_keepsProfileKeys in Hv as [Hd Ha].
  assert (keepsProfileKeys w w0).
  { split; [|congruence]. rewrite Hd, Hu2, Hu1. apply dom_insert_lookup_L. eauto. }
  case_match; wp_steps; done.
Qed.

Lemma createUser_profilesHaveAccounts email password username w :
  profilesHaveAccounts w ->
  wp (createUser email password username) (fun _ w' => profilesHaveAccounts w') w.
Proof.
  intros Hinv. unfold createUser, createUser_try, createUser_catch.
  wp_step. wp_step. wp_step.
  { case_match; wp_step; done. }
  case_match; [case_match; wp_step; done|].
  set (uid := fresh (dom (accounts w))).
  assert (Hgrown : dom (users w) ⊆ dom (<[uid := Account.mk (toLowerCase email) password None]> (accounts w))).
  { rewrite dom_insert_L. unfold profilesHaveAccounts in Hinv. set_solver. }
  wp_step. wp_step.
  { case_match; wp_step; done. }
  rewrite lookup_insert_eq. wp_step. wp_verify r Hv.
  apply verified_keepsProfileKeys in Hv as [Hd Ha]. world_simpl.
  assert (Hinv0 : dom (users w0) ⊆ dom (accounts w0)).
  { rewrite Hd, Ha, !dom_insert_L. rewrite dom_insert_L in Hgrown.
    clearbody uid. clear -Hgrown. set_solver. }
  assert (Huid : uid ∈ dom (accounts w0)).
  { rewrite Ha, !dom_insert_L. clearbody uid. clear. set_solver. }
  wp_step. wp_step. wp_step. wp_step. wp_step. wp_step.
  { case_match; wp_step; done. }
  wp_step. wp_step. wp_step.
  apply wp_logAnalyticsEvent. intros w' Hu' _ Ha' _ _ _ _. world_simpl. wp_step.
  unfold profilesHaveAccounts. rewrite Hu', Ha', dom_insert_L.
  apply union_least; [by apply singleton_subseteq_l|done].
Qed.

(** ** Runs of [generateMealPlan] *)

Section GenerationProperties.
Variable JSON_parse : string -> option json.

Lemma generateMealPlan_catch_wp {A : Type} error w :
  wp (@generateMealPlan_catch A error) (fun o _ => o = Throw mealPlanFailure) w.
Proof.
  unfold generateMealPlan_catch, Analytics.logAnalyticsEvent. wp_step. wp_step. wp_step.
  apply wp_logAnalyticsEvent. intros w' _ _ _ _ _ _ _. by wp_step.
Qed.

(** The [try] block returns only the array it found under [weeklyPlan] in
    the parsed answer of the endpoint. *)
Lemma generateMealPlan_try_wp w :
  wp (generateMealPlan_try JSON_parse)
     (fun o _ =>
        ∀ plan, o = Return plan ->
          ∃ completion rest content others response items,
            completions w = completion :: rest
            ∧ choices completion = content :: others
            ∧ JSON_parse (default "null" content) = Some response
            ∧ weeklyPlanOf response = Some (JArr items)
            ∧ plan = Some (JArr items)) w.
Proof.
  unfold generateMealPlan_try, firstMessageContent, parseContent, getProperty,
    Analytics.logAnalyticsEvent.
  wp_steps; try done.
  all: try (apply wp_logAnalyticsEvent; intros w' _ _ _ _ _ _ _; wp_steps; try done).
  all: intros plan [= <-].
  all: match goal with
       | Hor : negb (truthy ?v) || negb (isArray ?v) = false |- _ =>
           apply orb_false_iff in Hor as [_ Hor]; apply negb_false_iff in Hor
       end.
  all: try discriminate.
  all: match goal with
       | Harr : isArray ?v = true |- _ =>
           destruct v as [[]|] eqn:Hv; try discriminate
       end.
  all: eexists _, _, _, _, _, _; repeat split; eauto.
Qed.

Lemma generateMealPlan_wp w :
  wp (generateMealPlan JSON_parse)
     (fun o _ =>
        o = Throw mealPlanFailure
        ∨ ∃ completion rest content others response items,
            completions w = completion :: rest
            ∧ choices completion = content :: others
            ∧ JSON_parse (default "null" content) = Some response
            ∧ weeklyPlanOf response = Some (JArr items)
            ∧ o = Return (Some (JArr items))) w.
Proof.
  unfold generateMealPlan. wp_step. wp_step. wp_step.
  eapply wp_mono; [apply generateMealPlan_try_wp|]. world_simpl.
  intros [plan|e] w1 Htry.
  - right. destruct (Htry plan eq_refl)
      as (c & rest & content & others & response & items & ? & ? & ? & ? & ->).
    by exists c, rest, content, others, response, items.
  - eapply wp_mono; [apply generateMealPlan_catch_wp|]. cbn. auto.
Qed.

End GenerationProperties.

(** ** Runs under a known schedule *)

(** Unfolds a run of an operation down to the state it threads. *)
Ltac unfold_ops :=
  unfold signIn, signIn_try, signIn_catch, signOutUser, signOutUser_try, updateUserData,
    updateUserData_try, getUserData, addPremiumUser, addPremiumUser_try, createUser,
    createUser_try, createUser_catch, verifyPremiumStatus, verifyPremiumStatus_try,
    verifyPremiumStatus_catch, logAnalyticsEvent, logEvent, getDoc_users, getDocs_premiumUsers,
    updateDoc_users, setDoc_users, updateDoc_premiumUsers, setDoc_premiumUsers,
    newDocRef_premiumUsers, signInWithEmailAndPassword, signOut,
    createUserWithEmailAndPassword, updateProfile, auth_currentUser,
    try_catch, external, throw, now, mbind, M_bind, mret, M_ret.

Lemma accountFor_find email password w uid :
  accountFor email password w = Some uid ->
  ∃ a, List.find (fun ua => (Account.email (snd ua) =? toLowerCase email)
                            && (Account.password (snd ua) =? password))
                 (map_to_list (accounts w)) = Some (uid, a)
       ∧ accounts w !! uid = Some a
       ∧ Account.email a = toLowerCase email ∧ Account.password a = password.
Proof.
  unfold accountFor. destruct (List.find _ _) as [[u a]|] eqn:Hfind; [|done].
  intros [= <-]. exists a. split; [done|].
  apply find_some in Hfind as [Hin Hok]. apply andb_true_iff in Hok as [He Hp].
  apply String.eqb_eq in He, Hp. apply list_elem_of_In, elem_of_map_to_list in Hin. done.
Qed.

(** An account that is the only one of its email is the one a sign-in
    with its password finds. *)
Lemma accountFor_only email password uid a w :
  accounts w !! uid = Some a ->
  Account.email a = toLowerCase email -> Account.password a = password ->
  (∀ uid' a', accounts w !! uid' = Some a' ->
     Account.email a' = toLowerCase email -> uid' = uid) ->
  List.find (fun ua => (Account.email (snd ua) =? toLowerCase email)
                       && (Account.password (snd ua) =? password))
            (map_to_list (accounts w)) = Some (uid, a).
Proof.
  intros Ha Hemail Hpw Honly.
  destruct (List.find _ _) as [[u a']|] eqn:Hfind.
  - apply find_some in Hfind as [Hin Hok]. apply andb_true_iff in Hok as [He _].
    apply String.eqb_eq in He. apply list_elem_of_In, elem_of_map_to_list in Hin.
    cbn in He. assert (u = uid) as -> by (by eapply Honly). congruence.
  - exfalso. assert (Hin : In (uid, a) (map_to_list (accounts w)))
      by (by apply list_elem_of_In, elem_of_map_to_list).
    apply (find_none _ _ Hfind) in Hin. cbn in Hin.
    rewrite Hemail, Hpw, !String.eqb_refl in Hin. done.
Qed.

(** ** Verifications and the calls that fail *)

(** A verification makes three calls into the store ([getDoc], [getDocs],
    [updateDoc]) and a fourth into analytics.  When one of the three throws
    [e], the result is the fallback with the message of [e] and the profiles
    are as they were; the run ends in the fallback exactly when the profile
    is missing or one of the three throws. *)
Lemma verifyPremiumStatus_schedule userId w :
  ∃ r w', verifyPremiumStatus userId w = (Return r, w')
    ∧ (is_Some (Verification.error r) ↔ users w !! userId = None ∨ failsWithin 3 w)
    ∧ (is_Some (Verification.error r) ->
       Verification.isPremium r = false ∧ users w' = users w)
    ∧ (users w !! userId = None -> (∀ e fs, faults w ≠ Some e :: fs) ->
       Verification.error r = Some "User not found")
    ∧ (∀ k e fs, k < 3 -> faults w = (replicate k None ++ Some e :: fs)%list ->
       k = 0 ∨ is_Some (users w !! userId) ->
       Verification.isPremium r = false
       ∧ Verification.error r = Some (messageOrUnknown e)
       ∧ users w' = users w ∧ faults w' = fs).
Proof.
  unfold failsWithin.
  destruct (users w !! userId) as [p|] eqn:Hp;
    destruct (faults w) as [|[e0|] [|[e1|] [|[e2|] [|[e3|] fs]]]] eqn:Hf.
  all: unfold_ops; world_simpl; rewrite Hf; repeat (world_simpl; rewrite ?Hp, ?Hf).
  all: eexists _, _; (split; [reflexivity|]).
  all: cbn [Verification.error Verification.isPremium]; world_simpl.
  all: split; [split|].
  all: try solve
    [intros _; first [by left | right; exists 0; eexists; split; [lia|reflexivity]
                      | right; exists 1; eexists; split; [lia|reflexivity]
                      | right; exists 2; eexists; split; [lia|reflexivity]]].
  all: try solve
    [intros [? ?]; discriminate].
  all: try solve
    [intros [Hnone|(k & e & Hk & Hlook)];
      first [by eauto | discriminate
            | destruct k as [|[|[|k]]]; cbn in Hlook; first [discriminate | lia]]].
  all: try solve
    [split; [first [by intros [? ?] | by intros _] |];
   split;
    [first [by intros ? | intros _ Hno; first [reflexivity | by exfalso; eapply Hno]]|];
   intros k e fs0 Hk Heq Hor;
    destruct k as [|[|[|k]]]; cbn in Heq; try lia; try discriminate;
    injection Heq as -> ->;
    first [done | by destruct Hor as [?|[? ?]]]].
Qed.


(** * The claims *)

(** C1, amended.  For an account whose profile exists, [verifyPremiumStatus]
    returns.  The run does not end in the fallback of the [catch] block (its
    result carries no [error]) exactly when none of its three calls into the
    store ([getDoc], [getDocs], [updateDoc]) throws, so in particular when no
    call into a hosted service fails; then [isPremium] is true if and only
    if some record of [premiumUsers] has the lower-cased email of the
    profile, [active] and [stripeSubscriptionActive].  The profile's email is
    lower-cased before the comparison: an active record stored under the
    lower-cased form of an email matches every profile whose email differs
    from that email only in case.  When one of the three calls throws [e],
    the result is [isPremium = false] with the message of [e] as [error],
    whatever the records say. *)
Theorem verifyPremiumStatus_isPremium_iff userId w p :
  users w !! userId = Some p ->
  ∃ r w', verifyPremiumStatus userId w = (Return r, w')
    ∧ (faults w = [] -> Verification.error r = None)
    ∧ (Verification.error r = None ↔ ¬ failsWithin 3 w)
    ∧ (Verification.error r = None ->
       (Verification.isPremium r = true
        ↔ hasActiveSubscription (toLowerCase (UserData.email p)) (premiumUsers w)))
    ∧ (Verification.error r = None ->
       ∀ email, toLowerCase (UserData.email p) = toLowerCase email ->
         hasActiveSubscription (toLowerCase email) (premiumUsers w) ->
         Verification.isPremium r = true)
    ∧ (∀ k e fs, k < 3 -> faults w = (replicate k None ++ Some e :: fs)%list ->
       Verification.isPremium r = false
       ∧ Verification.error r = Some (messageOrUnknown e))
    ∧ (failsWithin 3 w ->
       Verification.isPremium r = false ∧ is_Some (Verification.error r)).
Proof.
  intros Hp. destruct (verifyPremiumStatus_returns userId w) as (r & w' & E & Hv).
  destruct (verifyPremiumStatus_schedule userId w)
    as (r0 & w0 & E0 & Hiff & Hfall & _ & Hsched).
  rewrite E in E0. injection E0 as <- <-.
  exists r, w'. split; [done|]. destruct Hv as (_ & _ & _ & _ & _ & Hv).
  assert (Hnone : Verification.error r = None ↔ ¬ failsWithin 3 w).
  { split.
    - intros Herr Hfail. destruct Hiff as [_ Hback].
      destruct Hback as [m Hm]; [by right|]. congruence.
    - intros Hok. destruct (Verification.error r) as [m|] eqn:Herr; [|done].
      destruct Hiff as [Hforth _]. destruct Hforth as [Hmiss|Hfail]; [eauto|congruence|done]. }
  split.
  { intros Hnil. apply Hnone. intros (k & e & _ & Hk). by rewrite Hnil in Hk. }
  split; [done|].
  assert (Hquery : Verification.error r = None ->
            Verification.isPremium r
            = queryNonEmpty (activeSubscriptionOf (toLowerCase (UserData.email p)))
                            (premiumUsers w)).
  { intros Herr. rewrite Herr in Hv. destruct Hv as (p' & Hp' & Hr & _). congruence. }
  split; [|split; [|split]].
  - intros Herr. rewrite (Hquery Herr). apply queryNonEmpty_active.
  - intros Herr email Hcase Hsub. rewrite (Hquery Herr).
    apply queryNonEmpty_active. by rewrite Hcase.
  - intros k e fs Hk Hf. destruct (Hsched k e fs Hk Hf) as (Hr & He & _); [eauto|done].
  - intros Hfail. destruct Hiff as [_ Hback]. specialize (Hback (or_intror Hfail)).
    split; [by apply Hfall|done].
Qed.

(** The record granted for [User@Example.com] is stored under
    [user@example.com], and the profile email [USER@EXAMPLE.COM] matches it. *)
Lemma verifyPremiumStatus_isPremium_iff_witness :
  ∃ r, (verifyPremiumStatus "u1" subscribedWorld).1 = Return r
       ∧ Verification.isPremium r = true.
Proof.
  destruct (verifyPremiumStatus_isPremium_iff "u1" subscribedWorld upperCaseProfile eq_refl)
    as (r & w' & E & Hok & _ & _ & Hcase & _).
  exists r. rewrite E. split; [reflexivity|].
  apply (Hcase (Hok eq_refl) "User@Example.com"); [reflexivity|].
  exists "p1", (sampleSubscription "user@example.com"). by vm_compute.
Defined.

(** C1 as stated fails: the profile exists and a matching active record
    exists, the query on [premiumUsers] throws, and the result is
    [isPremium = false]. *)
Lemma verifyPremiumStatus_outage_counterexample :
  ¬ (∀ userId w p r w',
       users w !! userId = Some p ->
       verifyPremiumStatus userId w = (Return r, w') ->
       (Verification.isPremium r = true
        ↔ hasActiveSubscription (toLowerCase (UserData.email p)) (premiumUsers w))).
Proof.
  intros Hclaim.
  assert (Hp : users outageWorld !! "u1" = Some upperCaseProfile) by (by vm_compute).
  destruct (verifyPremiumStatus_returns "u1" outageWorld) as (r & w' & E & _).
  destruct (Hclaim _ _ _ _ _ Hp E) as [_ Hback].
  apply (f_equal (fun x => returned x.1)) in E. vm_compute in E. injection E as <-.
  discriminate Hback.
  exists "p1", (sampleSubscription "user@example.com"). by vm_compute.
Qed.



(** C3, amended.  After [addPremiumUser] has returned [true], a
    verification of the granting account returns.  It does not end in its
    fallback exactly when none of its three calls into the store throws, so
    in particular when no call into a hosted service fails, and then it
    returns [isPremium = true].  When one of the three calls throws [e], it
    returns [isPremium = false] with the message of [e] as [error]. *)
Theorem addPremiumUser_then_verify email w w1 userId :
  addPremiumUser email w = (Return true, w1) ->
  currentUser w = Some userId ->
  ∃ r w2, verifyPremiumStatus userId w1 = (Return r, w2)
    ∧ (faults w1 = [] -> Verification.error r = None)
    ∧ (Verification.error r = None ↔ ¬ failsWithin 3 w1)
    ∧ (Verification.error r = None -> Verification.isPremium r = true)
    ∧ (∀ k e fs, k < 3 -> faults w1 = (replicate k None ++ Some e :: fs)%list ->
       Verification.isPremium r = false
       ∧ Verification.error r = Some (messageOrUnknown e)).
Proof.
  intros E Hcur. apply granted_run in E as (_ & Hok & _).
  destruct (Hok eq_refl) as (u & p' & Hu & _ & Hp' & Hemail & Hsub).
  assert (u = userId) as -> by congruence.
  destruct (verifyPremiumStatus_returns userId w1) as (r & w2 & E2 & Hv).
  destruct (verifyPremiumStatus_schedule userId w1)
    as (r0 & w0 & E0 & Hiff & _ & _ & Hsched).
  rewrite E2 in E0. injection E0 as <- <-.
  exists r, w2. split; [done|]. destruct Hv as (_ & _ & _ & _ & _ & Hv).
  assert (Hnone : Verification.error r = None ↔ ¬ failsWithin 3 w1).
  { split.
    - intros Herr Hfail. destruct Hiff as [_ Hback].
      destruct Hback as [m Hm]; [by right|]. congruence.
    - intros Hgo. destruct (Verification.error r) as [m|] eqn:Herr; [|done].
      destruct Hiff as [Hforth _]. destruct Hforth as [Hmiss|Hfail]; [eauto|congruence|done]. }
  split.
  { intros Hnil. apply Hnone. intros (k & e & _ & Hk). by rewrite Hnil in Hk. }
  split; [done|]. split.
  - intros Herr. rewrite Herr in Hv. destruct Hv as (p & Hp & -> & _).
    assert (p = p') as -> by congruence.
    apply queryNonEmpty_active. by rewrite Hemail, toLowerCase_idem.
  - intros k e fs Hk Hf. destruct (Hsched k e fs Hk Hf) as (Hr & He & _); [eauto|done].
Qed.

Lemma addPremiumUser_then_verify_witness :
  ∃ r, (verifyPremiumStatus "0" (addPremiumUser "User@Example.com" signedUpWorld).2).1 = Return r
       ∧ Verification.isPremium r = true.
Proof.
  destruct (addPremiumUser_then_verify "User@Example.com" signedUpWorld
              (addPremiumUser "User@Example.com" signedUpWorld).2 "0")
    as (r & w2 & E & Hok & _ & Htrue & _); [by vm_compute|by vm_compute|].
  exists r. rewrite E. split; [reflexivity|]. apply Htrue, Hok. by vm_compute.
Defined.

(** C3 as stated fails: the grant returns [true], the read of the profile
    in the verification that follows throws, and that verification returns
    [isPremium = false]. *)
Lemma addPremiumUser_then_verify_counterexample :
  ¬ (∀ email w w1 userId r w2,
       addPremiumUser email w = (Return true, w1) ->
       currentUser w = Some userId ->
       verifyPremiumStatus userId w1 = (Return r, w2) ->
       Verification.isPremium r = true).
Proof.
  intros Hclaim.
  set (w1 := (addPremiumUser "User@Example.com" outageAfterGrantWorld).2).
  assert (E1 : addPremiumUser "User@Example.com" outageAfterGrantWorld = (Return true, w1))
    by (by vm_compute).
  assert (Hcur : currentUser outageAfterGrantWorld = Some "0") by (by vm_compute).
  destruct (verifyPremiumStatus_returns "0" w1) as (r & w2 & E2 & _).
  specialize (Hclaim _ _ _ _ _ _ E1 Hcur E2).
  apply (f_equal (fun x => returned x.1)) in E2. vm_compute in E2.
  injection E2 as <-. discriminate Hclaim.
Qed.

(** C4.  [verifyPremiumStatus] never throws: in every world, whatever the
    hosted services throw, it returns a result.  A result that carries an
    [error] has [isPremium = false] and has left the profiles alone; the
    result carries one exactly when the profile is missing or one of the
    three calls into the store ([getDoc], [getDocs], [updateDoc]) throws.  A
    missing profile gives the message [User not found]; a call that throws
    [e] gives the message of [e]; and whenever the [try] block throws [e],
    the result is [isPremium = false] with the message of [e] attached. *)
Theorem verifyPremiumStatus_never_throws userId w :
  ∃ r w', verifyPremiumStatus userId w = (Return r, w')
    ∧ (is_Some (Verification.error r) -> Verification.isPremium r = false)
    ∧ (users w !! userId = None ->
       Verification.isPremium r = false ∧ is_Some (Verification.error r))
    ∧ (∀ e w1, verifyPremiumStatus_try userId w = (Throw e, w1) ->
       Verification.isPremium r = false
       ∧ Verification.error r = Some (messageOrUnknown e))
    ∧ (is_Some (Verification.error r) ↔ users w !! userId = None ∨ failsWithin 3 w)
    ∧ (is_Some (Verification.error r) -> users w' = users w)
    ∧ (users w !! userId = None -> (∀ e fs, faults w ≠ Some e :: fs) ->
       Verification.error r = Some "User not found")
    ∧ (∀ k e fs, k < 3 -> faults w = (replicate k None ++ Some e :: fs)%list ->
       k = 0 ∨ is_Some (users w !! userId) ->
       Verification.isPremium r = false
       ∧ Verification.error r = Some (messageOrUnknown e)
       ∧ users w' = users w).
Proof.
  destruct (verifyPremiumStatus_returns userId w) as (r & w' & E & Hv).
  destruct (verifyPremiumStatus_schedule userId w)
    as (r0 & w0 & E0 & Hiff & Hfall & Hmissing & Hsched).
  rewrite E in E0. injection E0 as <- <-.
  exists r, w'. split; [done|].
  destruct Hv as (_ & _ & _ & _ & _ & Hv). split; [|split; [|split]].
  - intros [m Hm]. rewrite Hm in Hv. tauto.
  - intros Hnone. destruct (Verification.error r).
    + split; [tauto|eauto].
    + destruct Hv as (p & Hp & _). congruence.
  - intros e w1 Htry. unfold verifyPremiumStatus, try_catch in E. rewrite Htry in E.
    by injection E as <- _.
  - split; [done|]. split; [by intros Herr; apply Hfall|]. split; [done|].
    intros k e fs Hk Hf Hor. destruct (Hsched k e fs Hk Hf Hor) as (Hr & He & Hu & _). done.
Qed.

(** C5, amended.  Two consecutive runs of [verifyPremiumStatus] both return
    and leave [premiumUsers] as it was.  When neither ends in the fallback
    they return the same [isPremium], and the profile's [isPremium] has that
    value after each of them; when both end in the fallback they both return
    [isPremium = false] and neither has touched the profiles; when no call
    into a hosted service fails they return the same [isPremium] and the
    stored [isPremium] is the same after both (also when there is no
    profile).  A run ends in the fallback exactly when the profile is missing
    or one of its three calls into the store throws; a run in which one of
    them throws [e] returns [isPremium = false] with the message of [e] and
    leaves the profiles as they were, so the results can differ when only
    one of the two runs meets a failure. *)
Theorem verifyPremiumStatus_idempotent userId w :
  ∃ r1 w1 r2 w2,
    verifyPremiumStatus userId w = (Return r1, w1)
    ∧ verifyPremiumStatus userId w1 = (Return r2, w2)
    ∧ premiumUsers w1 = premiumUsers w ∧ premiumUsers w2 = premiumUsers w
    ∧ (Verification.error r1 = None -> Verification.error r2 = None ->
       Verification.isPremium r2 = Verification.isPremium r1
       ∧ UserData.isPremium <$> users w1 !! userId = Some (Verification.isPremium r1)
       ∧ UserData.isPremium <$> users w2 !! userId = Some (Verification.isPremium r1))
    ∧ (faults w = [] ->
       Verification.isPremium r2 = Verification.isPremium r1
       ∧ UserData.isPremium <$> users w2 !! userId = UserData.isPremium <$> users w1 !! userId)
    ∧ (is_Some (Verification.error r1) -> is_Some (Verification.error r2) ->
       Verification.isPremium r1 = false ∧ Verification.isPremium r2 = false
       ∧ users w1 = users w ∧ users w2 = users w)
    ∧ (is_Some (Verification.error r1) ↔ users w !! userId = None ∨ failsWithin 3 w)
    ∧ (is_Some (Verification.error r2) ↔ users w1 !! userId = None ∨ failsWithin 3 w1)
    ∧ (∀ k e fs, k < 3 -> faults w = (replicate k None ++ Some e :: fs)%list ->
       k = 0 ∨ is_Some (users w !! userId) ->
       Verification.isPremium r1 = false
       ∧ Verification.error r1 = Some (messageOrUnknown e)
       ∧ users w1 = users w)
    ∧ (∀ k e fs, k < 3 -> faults w1 = (replicate k None ++ Some e :: fs)%list ->
       k = 0 ∨ is_Some (users w1 !! userId) ->
       Verification.isPremium r2 = false
       ∧ Verification.error r2 = Some (messageOrUnknown e)
       ∧ users w2 = users w1).
Proof.
  destruct (verifyPremiumStatus_returns userId w) as (r1 & w1 & E1 & Hv1).
  destruct (verifyPremiumStatus_returns userId w1) as (r2 & w2 & E2 & Hv2).
  destruct (verifyPremiumStatus_schedule userId w)
    as (r1' & w1' & E1' & Hiff1 & Hfall1 & _ & Hsched1).
  rewrite E1 in E1'. injection E1' as <- <-.
  destruct (verifyPremiumStatus_schedule userId w1)
    as (r2' & w2' & E2' & Hiff2 & Hfall2 & _ & Hsched2).
  rewrite E2 in E2'. injection E2' as <- <-.
  exists r1, w1, r2, w2. split; [done|]. split; [done|].
  destruct Hv1 as (Hpm1 & _ & _ & _ & Hf1 & Hv1).
  destruct Hv2 as (Hpm2 & _ & _ & _ & Hf2 & Hv2).
  split; [done|]. split; [congruence|].
  assert (Hboth : Verification.error r1 = None -> Verification.error r2 = None ->
       Verification.isPremium r2 = Verification.isPremium r1
       ∧ UserData.isPremium <$> users w1 !! userId = Some (Verification.isPremium r1)
       ∧ UserData.isPremium <$> users w2 !! userId = Some (Verification.isPremium r1)).
  { intros He1 He2. rewrite He1 in Hv1. rewrite He2 in Hv2.
    destruct Hv1 as (p1 & Hp1 & Hr1 & Hu1). destruct Hv2 as (p2 & Hp2 & Hr2 & Hu2).
    rewrite Hu1, lookup_insert_eq in Hp2. injection Hp2 as <-.
    cbn in Hr2. rewrite Hpm1, <- Hr1 in Hr2.
    rewrite Hu2, Hu1, !lookup_insert_eq. cbn. by rewrite Hr2. }
  split; [done|]. split.
  { intros Hnil.
    destruct (Verification.error r1) as [m1|] eqn:He1;
      destruct (Verification.error r2) as [m2|] eqn:He2.
    - destruct Hv1 as (-> & Hu1 & _). destruct Hv2 as (-> & -> & _). done.
    - destruct Hv1 as (_ & Hu1 & Hnone). destruct Hv2 as (p2 & Hp2 & _).
      destruct (Hnone Hnil) as [Hn _]. congruence.
    - destruct Hv1 as (p1 & Hp1 & _ & Hu1). destruct Hv2 as (_ & _ & Hnone).
      destruct (Hnone (Hf1 Hnil)) as [Hn _]. rewrite Hu1, lookup_insert_eq in Hn. done.
    - destruct (Hboth eq_refl eq_refl) as (Hsame & Hs1 & Hs2). split; congruence. }
  split.
  { intros Hs1 Hs2. destruct (Hfall1 Hs1) as [Hr1 Hu1]. destruct (Hfall2 Hs2) as [Hr2 Hu2].
    repeat split; congruence. }
  split; [done|]. split; [done|]. split.
  - intros k e fs Hk Hf Hor. destruct (Hsched1 k e fs Hk Hf Hor) as (Hr & He & Hu & _). done.
  - intros k e fs Hk Hf Hor. destruct (Hsched2 k e fs Hk Hf Hor) as (Hr & He & Hu & _). done.
Qed.

(** C5 as stated fails: nothing changes [premiumUsers] between the two
    runs, the first returns [isPremium = true], the read of the profile in
    the second throws, and the second returns [isPremium = false]. *)
Lemma verifyPremiumStatus_not_idempotent_counterexample :
  ¬ (∀ userId w r1 w1 r2 w2,
       verifyPremiumStatus userId w = (Return r1, w1) ->
       verifyPremiumStatus userId w1 = (Return r2, w2) ->
       premiumUsers w1 = premiumUsers w ->
       Verification.isPremium r2 = Verification.isPremium r1).
Proof.
  intros Hclaim.
  destruct (verifyPremiumStatus_returns "u1" outageAfterFirstWorld)
    as (r1 & w1 & E1 & Hpm & _).
  destruct (verifyPremiumStatus_returns "u1" w1) as (r2 & w2 & E2 & _).
  specialize (Hclaim _ _ _ _ _ _ E1 E2 Hpm).
  assert (Ew : w1 = (verifyPremiumStatus "u1" outageAfterFirstWorld).2) by (by rewrite E1).
  subst w1.
  apply (f_equal (fun x => returned x.1)) in E1, E2. vm_compute in E1, E2.
  injection E1 as <-. injection E2 as <-. discriminate Hclaim.
Qed.

(** C6.  When the identity provider rejects the creation with the code
    [auth/email-already-in-use], [createUser] throws the duplicate-email
    message.  That message is not the generic one of
    [getAuthErrorMessage], and among the provider's codes only
    [auth/email-already-in-use] is mapped to it. *)
Theorem createUser_duplicate_email email password username w e w1 :
  createUserWithEmailAndPassword email password w = (Throw e, w1) ->
  code e = Some "auth/email-already-in-use" ->
  createUser email password username w
  = (Throw (newError "This email is already registered. Please sign in instead."), w1)
  ∧ "This email is already registered. Please sign in instead." ≠ getAuthErrorMessage None
  ∧ ∀ c, getAuthErrorMessage (Some c)
         = "This email is already registered. Please sign in instead." ->
         c = "auth/email-already-in-use".
Proof.
  intros E Hcode. split; [|split].
  - unfold createUser, try_catch, createUser_try, mbind, M_bind. rewrite E.
    unfold createUser_catch. by rewrite Hcode.
  - done.
  - intros c. unfold getAuthErrorMessage.
    repeat (case_match; try discriminate). intros _. by apply String.eqb_eq.
Qed.

(** [user@example.com] has an account; creating one for [User@Example.com]
    fails with the duplicate-email message. *)
Lemma createUser_duplicate_email_witness :
  (createUser "User@Example.com" "secret2" "bob" subscribedWorld).1
  = Throw (newError "This email is already registered. Please sign in instead.").
Proof.
  destruct (createUser_duplicate_email "User@Example.com" "secret2" "bob" subscribedWorld
              (ErrorObj (Some "auth/email-already-in-use")
                        "Firebase: Error (auth/email-already-in-use).")
              subscribedWorld) as (E & _); [by vm_compute|reflexivity|].
  by rewrite E.
Defined.

(** C7.  When the answer of the endpoint parses to a value whose
    [weeklyPlan] is missing or is not an array, [generateMealPlan] throws the
    generic meal-plan failure, whatever else happens on the way. *)
Theorem generateMealPlan_invalid_shape JSON_parse w completion rest content others response :
  completions w = completion :: rest ->
  choices completion = content :: others ->
  JSON_parse (default "null" content) = Some response ->
  isArray (weeklyPlanOf response) = false ->
  ∃ w', generateMealPlan JSON_parse w = (Throw mealPlanFailure, w').
Proof.
  intros Hc Hch Hparse Hshape.
  pose proof (generateMealPlan_wp JSON_parse w) as Hwp. unfold wp in Hwp.
  destruct (generateMealPlan JSON_parse w) as [o w'] eqn:E. cbn [fst snd] in Hwp.
  exists w'. destruct Hwp as [->|Hret]; [done|exfalso].
  destruct Hret as (c & rest' & content' & others' & response' & items & Hc' & Hch' & Hp' & Hw & _).
  rewrite Hc in Hc'. injection Hc' as <- <-.
  rewrite Hch in Hch'. injection Hch' as <- <-.
  rewrite Hparse in Hp'. injection Hp' as <-.
  by rewrite Hw in Hshape.
Qed.

(** An answer without [weeklyPlan], and one whose [weeklyPlan] is a number. *)
Lemma generateMealPlan_invalid_shape_witness :
  (generateMealPlan sampleParse (answeringWorld answerWithoutPlan)).1 = Throw mealPlanFailure
  ∧ (generateMealPlan sampleParse (answeringWorld answerWithNumber)).1 = Throw mealPlanFailure.
Proof.
  split.
  - destruct (generateMealPlan_invalid_shape sampleParse (answeringWorld answerWithoutPlan)
                (Build_ChatCompletion [Some answerWithoutPlan]) [] (Some answerWithoutPlan) []
                (JObj [("meals", JArr [])]) eq_refl eq_refl eq_refl eq_refl) as [w' E].
    by rewrite E.
  - destruct (generateMealPlan_invalid_shape sampleParse (answeringWorld answerWithNumber)
                (Build_ChatCompletion [Some answerWithNumber]) [] (Some answerWithNumber) []
                (JObj [("weeklyPlan", JNum 7)]) eq_refl eq_refl eq_refl eq_refl) as [w' E].
    by rewrite E.
Defined.

(** C8.  In a world where every profile belongs to an account, a
    [createUser] that returns has written, under the new uid, where there was
    no profile before, the document [newUserData] with [isPremium = false]:
    the verification ran before the document was there and fell back.  The
    records of [premiumUsers] play no part. *)
Theorem createUser_profile_not_premium email password username w uid w' :
  profilesHaveAccounts w ->
  createUser email password username w = (Return uid, w') ->
  users w !! uid = None
  ∧ ∃ p, users w' !! uid = Some p ∧ UserData.isPremium p = false
         ∧ ∃ createdAt updatedAt, p = newUserData username email false createdAt updatedAt.
Proof.
  intros Hinv E.
  destruct (wp_run _ _ _ _ _ E (createUser_wp email password username w Hinv) uid eq_refl)
    as (Hnone & t1 & t2 & Hp).
  split; [done|]. eexists. split; [exact Hp|]. split; [done|]. eauto.
Qed.

(** An active record for [user@example.com] is there before the account
    is created, and the new profile is not premium. *)
Lemma createUser_profile_not_premium_witness :
  hasActiveSubscription "user@example.com" (premiumUsers prepaidWorld)
  ∧ ∃ p, users (createUser "User@Example.com" "secret1" "ann" prepaidWorld).2 !! "0" = Some p
         ∧ UserData.email p = "user@example.com" ∧ UserData.isPremium p = false.
Proof.
  split; [exists "p1", (sampleSubscription "user@example.com"); by vm_compute|].
  destruct (createUser_profile_not_premium "User@Example.com" "secret1" "ann" prepaidWorld "0"
              (createUser "User@Example.com" "secret1" "ann" prepaidWorld).2)
    as (_ & p & Hp & Hprem & t1 & t2 & ->).
  - unfold profilesHaveAccounts. by vm_compute.
  - by vm_compute.
  - eexists. split; [exact Hp|]. done.
Defined.

(** C9.  After [addPremiumUser email] has returned, the email of the
    caller's profile is the lower-cased [email], whatever it was before. *)
Theorem addPremiumUser_overwrites_email email w b w1 userId :
  addPremiumUser email w = (Return b, w1) ->
  currentUser w = Some userId ->
  ∃ p', users w1 !! userId = Some p' ∧ UserData.email p' = toLowerCase email.
Proof.
  intros E Hcur. apply granted_run in E as (Hres & Hok & _).
  destruct Hres as [Hres|[e He]]; [|done].
  destruct (Hok Hres) as (u & p' & Hu & _ & Hp' & Hemail & _).
  assert (u = userId) as -> by congruence. eauto.
Qed.

(** The profile held [ann@example.com]; the grant for [Other@Example.com]
    leaves [other@example.com]. *)
Lemma addPremiumUser_overwrites_email_witness :
  UserData.email <$> users signedUpWorld !! "0" = Some "ann@example.com"
  ∧ ∃ p', users (addPremiumUser "Other@Example.com" signedUpWorld).2 !! "0" = Some p'
          ∧ UserData.email p' = "other@example.com".
Proof.
  split; [by vm_compute|].
  apply (addPremiumUser_overwrites_email "Other@Example.com" signedUpWorld true
           (addPremiumUser "Other@Example.com" signedUpWorld).2 "0"); by vm_compute.
Defined.

(** C10.  A run of [verifyPremiumStatus] that does not end in the fallback
    has written the profile: [stripeSubscriptionActive] and [isPremium] are
    the returned [isPremium], [lastVerified] and [updatedAt] are the first
    two readings of the clock in the run, whatever they were before, the
    other fields are kept, and so are the other profiles. *)
Theorem verifyPremiumStatus_writes_stripeSubscriptionActive userId w r w' :
  verifyPremiumStatus userId w = (Return r, w') ->
  Verification.error r = None ->
  ∃ p p',
    users w !! userId = Some p ∧ users w' !! userId = Some p'
    ∧ UserData.stripeSubscriptionActive p' = Some (Verification.isPremium r)
    ∧ UserData.isPremium p' = Verification.isPremium r
    ∧ UserData.lastVerified p' = Some (clock w)
    ∧ UserData.updatedAt p' = S (clock w)
    ∧ UserData.username p' = UserData.username p
    ∧ UserData.email p' = UserData.email p
    ∧ UserData.premiumSince p' = UserData.premiumSince p
    ∧ UserData.stripeSessionId p' = UserData.stripeSessionId p
    ∧ UserData.stripeCustomerId p' = UserData.stripeCustomerId p
    ∧ UserData.savedRecipes p' = UserData.savedRecipes p
    ∧ UserData.mealPlans p' = UserData.mealPlans p
    ∧ UserData.preferences p' = UserData.preferences p
    ∧ UserData.createdAt p' = UserData.createdAt p
    ∧ UserData.premiumDocId p' = UserData.premiumDocId p
    ∧ ∀ other, other ≠ userId -> users w' !! other = users w !! other.
Proof.
  intros E Herr. apply verified_run in E as (_ & _ & _ & _ & _ & Hv).
  rewrite Herr in Hv. destruct Hv as (p & Hp & _ & Hu).
  exists p, (verifiedFields (Verification.isPremium r) (clock w) (S (clock w)) p).
  rewrite Hu, lookup_insert_eq. repeat split; try done.
  intros other Hother. by rewrite lookup_insert_ne.
Qed.

Lemma verifyPremiumStatus_writes_stripeSubscriptionActive_witness :
  UserData.lastVerified upperCaseProfile = None
  ∧ UserData.updatedAt upperCaseProfile = 2
  ∧ ∃ p', users (verifyPremiumStatus "u1" subscribedWorld).2 !! "u1" = Some p'
        ∧ UserData.stripeSubscriptionActive p' = Some true
        ∧ UserData.lastVerified p' = Some 10
        ∧ UserData.updatedAt p' = 11.
Proof.
  split; [reflexivity|]. split; [reflexivity|].
  destruct (verifyPremiumStatus_writes_stripeSubscriptionActive "u1" subscribedWorld
              (Verification.mk true 13 None) (verifyPremiumStatus "u1" subscribedWorld).2)
    as (p & p' & _ & Hp' & Hs & _ & Hl & Hu & _); [by vm_compute|reflexivity|].
  exists p'. done.
Defined.

(** * Further properties *)

(** Every operation keeps the profiles within the accounts of the identity
    provider. *)
Theorem profilesHaveAccounts_preserved w :
  profilesHaveAccounts w ->
  (∀ userId, profilesHaveAccounts (verifyPremiumStatus userId w).2)
  ∧ (∀ userId forceRefresh, profilesHaveAccounts (getUserData userId forceRefresh w).2)
  ∧ (∀ email, profilesHaveAccounts (addPremiumUser email w).2)
  ∧ (∀ email password username,
       profilesHaveAccounts (createUser email password username w).2).
Proof.
  intros Hinv. repeat split.
  - intros userId. destruct (verifyPremiumStatus_returns userId w) as (r & w' & E & Hv).
    rewrite E. eapply keepsProfileKeys_invariant; [|done].
    by eapply verified_keepsProfileKeys.
  - intros userId forceRefresh.
    eapply keepsProfileKeys_invariant; [|done]. apply getUserData_keepsProfileKeys.
  - intros email. eapply keepsProfileKeys_invariant; [|done].
    apply addPremiumUser_keepsProfileKeys.
  - intros email password username. by apply createUser_profilesHaveAccounts.
Qed.

Lemma profilesHaveAccounts_preserved_witness :
  profilesHaveAccounts emptyWorld
  ∧ profilesHaveAccounts (createUser "ann@example.com" "secret1" "ann" emptyWorld).2.
Proof.
  assert (H0 : profilesHaveAccounts emptyWorld) by (unfold profilesHaveAccounts; by vm_compute).
  split; [done|]. apply (profilesHaveAccounts_preserved emptyWorld H0).
Defined.

(** When no call into a hosted service fails, [addPremiumUser] with a
    non-empty email, for a signed-in user who has a profile, returns [true]:
    its closing verification finds the record it has just written. *)
Theorem addPremiumUser_succeeds email w userId :
  faults w = [] -> email ≠ "" -> currentUser w = Some userId ->
  is_Some (users w !! userId) ->
  ∃ w', addPremiumUser email w = (Return true, w') ∧ faults w' = [].
Proof.
  intros Hnil Hemail Hcur Hp.
  pose proof (addPremiumUser_wp email w) as (_ & _ & Hok).
  destruct (Hok Hnil Hemail userId Hcur Hp) as [Hret Hf].
  destruct (addPremiumUser email w) as [o w']. cbn [fst snd] in *. subst o. eauto.
Qed.

Lemma addPremiumUser_succeeds_witness :
  (addPremiumUser "User@Example.com" signedUpWorld).1 = Return true.
Proof.
  destruct (addPremiumUser_succeeds "User@Example.com" signedUpWorld "0")
    as (w' & E & _); [by vm_compute|done|by vm_compute|vm_compute; eauto|].
  by rewrite E.
Defined.

(** [generateMealPlan] throws nothing but the generic failure: a failure of
    the endpoint, a content that does not parse and a wrong shape are all
    replaced by it; and what it returns is the array found under
    [weeklyPlan] in the parsed content of the first choice. *)
Theorem generateMealPlan_only_generic_failure JSON_parse w :
  ∃ o w', generateMealPlan JSON_parse w = (o, w')
    ∧ (o = Throw mealPlanFailure
       ∨ ∃ completion rest content others response items,
           completions w = completion :: rest
           ∧ choices completion = content :: others
           ∧ JSON_parse (default "null" content) = Some response
           ∧ weeklyPlanOf response = Some (JArr items)
           ∧ o = Return (Some (JArr items))).
Proof.
  pose proof (generateMealPlan_wp JSON_parse w) as Hwp. unfold wp in Hwp.
  destruct (generateMealPlan JSON_parse w) as [o w']. cbn [fst snd] in Hwp.
  exists o, w'. split; done.
Qed.

(** The analytics helper never throws, and it leaves the two collections and
    the accounts alone. *)
Theorem logAnalyticsEvent_never_throws eventName eventParams w :
  ∃ w', logAnalyticsEvent eventName eventParams w = (Return tt, w')
    ∧ users w' = users w ∧ premiumUsers w' = premiumUsers w ∧ accounts w' = accounts w.
Proof.
  pose proof (wp_logAnalyticsEvent w eventName eventParams
                (fun o w' => o = Return tt ∧ users w' = users w
                             ∧ premiumUsers w' = premiumUsers w ∧ accounts w' = accounts w)) as Hwp.
  unfold wp in Hwp. destruct (logAnalyticsEvent eventName eventParams w) as [o w'].
  cbn [fst snd] in Hwp. destruct Hwp as (-> & Hrest); [by intros|]. eauto.
Qed.

(** ** Runs of [signIn] *)

Lemma wp_signInWithEmailAndPassword w email password Q :
  throwsAt w Q ->
  (∀ fs, (faults w = [] -> fs = []) ->
     match accountFor email password w with
     | Some uid => Q (Return uid) (set_currentUser (Some uid) (set_faults fs w))
     | None => Q (Throw (ErrorObj (Some "auth/invalid-credential")
                                  "Firebase: Error (auth/invalid-credential)."))
                 (set_faults fs w)
     end) ->
  wp (signInWithEmailAndPassword email password) Q w.
Proof.
  intros Hthrow Hgo. apply wp_external; [exact Hthrow|].
  intros fs Hfs. specialize (Hgo fs Hfs). unfold wp, accountFor in *. world_simpl.
  destruct (List.find _ _) as [[uid a]|]; done.
Qed.

(** The link between a run of [signIn] from [w] and the world [w'] it
    leaves. *)
Lemma signIn_wp email password w :
  wp (signIn email password)
     (fun o w' =>
        premiumUsers w' = premiumUsers w ∧ accounts w' = accounts w
        ∧ match o with
          | Return uid =>
              accountFor email password w = Some uid ∧ currentUser w' = Some uid
              ∧ ∃ p p0 b t1 t2,
                  users w !! uid = Some p
                  ∧ users w' = <[uid := refreshedFields b t1 t2 p0]> (users w)
                  ∧ UserData.email p0 = UserData.email p
                  ∧ (b = true ->
                     hasActiveSubscription (toLowerCase (UserData.email p)) (premiumUsers w))
                  ∧ (faults w = [] ->
                     hasActiveSubscription (toLowerCase (UserData.email p)) (premiumUsers w) ->
                     b = true)
          | Throw e => ∃ c, e = newError (getAuthErrorMessage c)
          end) w.
Proof.
  unfold signIn, signIn_try, signIn_catch.
  wp_step. wp_step.
  apply wp_signInWithEmailAndPassword.
  { intros e fs Hfault. wp_step. world_simpl. eauto. }
  intros fs Hfs. destruct (accountFor email password w) as [uid|] eqn:Hacc.
  2:{ wp_step. eauto. }
  wp_step. wp_verify r Hv. destruct Hv as (Hpm & Hacc' & Hcur & _ & Hf & Hv). world_simpl.
  wp_step. wp_step. wp_step. wp_step. wp_step.
  apply wp_updateDoc_users.
  { intros e fs' Hfault. wp_step. world_simpl. eauto. }
  intros fs' Hfs'. world_simpl.
  destruct (users w0 !! uid) as [p0|] eqn:Hp0.
  2:{ wp_step. eauto. }
  wp_step. wp_step. wp_step.
  apply wp_logAnalyticsEvent. intros w' Hu' Hpm' Ha' Hc' _ _ _. world_simpl. wp_step.
  split; [congruence|]. split; [congruence|]. split; [done|]. split; [congruence|].
  destruct (Verification.error r) as [message|] eqn:Herr.
  - destruct Hv as (Hfalse & Hu0 & Hnone). rewrite Hu0 in Hp0, Hu'.
    rewrite Hfalse in Hu'. eexists p0, p0, false, _, _.
    split; [done|]. split; [exact Hu'|]. split; [done|]. split; [done|].
    intros Hnil _. destruct Hnone as [Hn _]; [by apply Hfs|]. congruence.
  - destruct Hv as (p & Hp & Hr & Hu0). rewrite Hu0, lookup_insert_eq in Hp0.
    injection Hp0 as <-. rewrite Hu0, insert_insert_eq in Hu'.
    eexists p, _, (Verification.isPremium r), _, _. split; [done|]. split; [exact Hu'|].
    split; [done|]. rewrite Hr. split.
    + intros Hq. by apply queryNonEmpty_active.
    + intros _ Hsub. by apply queryNonEmpty_active.
Qed.

(** After a sign-in that returned, the session is the account of the
    credentials and its stored profile is premium only if an active record
    matches its email; when no call fails, it is premium exactly then. *)
Theorem signIn_premium_sound email password w uid w' :
  signIn email password w = (Return uid, w') ->
  accountFor email password w = Some uid ∧ currentUser w' = Some uid
  ∧ premiumUsers w' = premiumUsers w
  ∧ ∃ p p', users w !! uid = Some p ∧ users w' !! uid = Some p'
      ∧ UserData.email p' = UserData.email p
      ∧ (∀ other, other ≠ uid -> users w' !! other = users w !! other)
      ∧ (UserData.isPremium p' = true ->
         hasActiveSubscription (toLowerCase (UserData.email p)) (premiumUsers w))
      ∧ (faults w = [] ->
         hasActiveSubscription (toLowerCase (UserData.email p)) (premiumUsers w) ->
         UserData.isPremium p' = true).
Proof.
  intros E. pose proof (wp_run _ _ _ _ _ E (signIn_wp email password w)) as (Hpm & _ & Hok).
  destruct Hok as (Hacc & Hcur & p & p0 & b & t1 & t2 & Hp & Hu & Hemail & Hsound & Hcomplete).
  split; [done|]. split; [done|]. split; [done|].
  exists p, (refreshedFields b t1 t2 p0). rewrite Hu, lookup_insert_eq.
  split; [done|]. split; [done|]. split; [done|].
  split; [by intros other Hother; rewrite lookup_insert_ne|]. done.
Qed.

Lemma signIn_premium_sound_witness :
  ∃ p', users (signIn "ANN@example.com" "secret1" premiumWorld).2 !! "0" = Some p'
        ∧ UserData.isPremium p' = true.
Proof.
  destruct (signIn_premium_sound "ANN@example.com" "secret1" premiumWorld "0"
              (signIn "ANN@example.com" "secret1" premiumWorld).2)
    as (_ & _ & _ & p & p' & Hp & Hp' & _ & _ & _ & Hcomplete); [by vm_compute|].
  exists p'. split; [exact Hp'|]. apply Hcomplete; [vm_compute; reflexivity|].
  vm_compute in Hp. injection Hp as <-. clear Hp' Hcomplete.
  exists "0", (PremiumUser.mk "ann@example.com" "0" true true 4 5).
  vm_compute. repeat split.
Defined.

(** A failure of the store inside the verification that [signIn] runs does
    not fail the sign-in: it returns the user and writes [isPremium = false]
    into the stored profile, whatever the profile and the records say. *)
Theorem signIn_outage_demotes email password w uid p e k :
  accountFor email password w = Some uid ->
  users w !! uid = Some p ->
  k < 3 ->
  faults w = None :: replicate k None ++ [Some e] ->
  ∃ w' t1 t2, signIn email password w = (Return uid, w')
    ∧ users w' = <[uid := refreshedFields false t1 t2 p]> (users w)
    ∧ premiumUsers w' = premiumUsers w.
Proof.
  intros Hacc Hp Hk Hf. apply accountFor_find in Hacc as (a & Hfind & _).
  destruct k as [|[|[|k]]]; [| | |lia]; cbn in Hf;
    unfold_ops; world_simpl; rewrite Hf, Hfind;
    repeat (world_simpl; rewrite ?Hp); eexists _, _, _; (split; [reflexivity|]);
    world_simpl; split; reflexivity.
Qed.

Lemma signIn_outage_demotes_witness :
  UserData.isPremium <$> users premiumWorld !! "0" = Some true
  ∧ hasActiveSubscription "ann@example.com" (premiumUsers premiumWorld)
  ∧ (signIn "ann@example.com" "secret1" outageAtSignInWorld).1 = Return "0"
  ∧ UserData.isPremium
      <$> users (signIn "ann@example.com" "secret1" outageAtSignInWorld).2 !! "0"
    = Some false.
Proof.
  split; [by vm_compute|].
  split; [exists "0", (PremiumUser.mk "ann@example.com" "0" true true 4 5); by vm_compute|].
  destruct (signIn_outage_demotes "ann@example.com" "secret1" outageAtSignInWorld "0"
              (default upperCaseProfile (users premiumWorld !! "0")) offline 0)
    as (w' & t1 & t2 & E & Hu & _); [by vm_compute|by vm_compute|lia|by vm_compute|].
  rewrite E. split; [reflexivity|]. cbn [snd]. rewrite Hu, lookup_insert_eq. reflexivity.
Defined.

(** A sign-in that the provider rejects throws the message mapped from the
    provider's code, opens no session and writes nothing.  Without a matching
    account (unknown email or wrong password alike) the message is the one
    for invalid credentials. *)
Theorem signIn_rejected email password w e w1 :
  signInWithEmailAndPassword email password w = (Throw e, w1) ->
  signIn email password w = (Throw (newError (getAuthErrorMessage (code e))), w1)
  ∧ sameStore w w1
  ∧ (accountFor email password w = None -> faults w = [] ->
     getAuthErrorMessage (code e) = "Invalid email or password. Please try again.").
Proof.
  intros E. split; [|split].
  - unfold signIn, signIn_try, try_catch, mbind, M_bind. rewrite E. done.
  - revert E. unfold signInWithEmailAndPassword, external.
    destruct (faults w) as [|[e'|] fs]; world_simpl.
    + destruct (List.find _ _) as [[u a]|]; intros [= <- <-]; done.
    + intros [= <- <-]. done.
    + destruct (List.find _ _) as [[u a]|]; intros [= <- <-]; done.
  - intros Hnone Hnil. revert E. unfold signInWithEmailAndPassword, external, accountFor in *.
    rewrite Hnil. destruct (List.find _ _) as [[u a]|]; [done|]. by intros [= <- <-].
Qed.

Lemma signIn_rejected_witness :
  (signIn "ann@example.com" "wrong" signedUpWorld).1
  = Throw (newError "Invalid email or password. Please try again.")
  ∧ (signIn "nobody@example.com" "secret1" signedUpWorld).1
    = Throw (newError "Invalid email or password. Please try again.").
Proof.
  split.
  - destruct (signIn_rejected "ann@example.com" "wrong" signedUpWorld
                (ErrorObj (Some "auth/invalid-credential")
                          "Firebase: Error (auth/invalid-credential).") signedUpWorld)
      as (E & _); [by vm_compute|]. by rewrite E.
  - destruct (signIn_rejected "nobody@example.com" "secret1" signedUpWorld
                (ErrorObj (Some "auth/invalid-credential")
                          "Firebase: Error (auth/invalid-credential).") signedUpWorld)
      as (E & _); [by vm_compute|]. by rewrite E.
Defined.

Lemma stranded_accountFor email password uid w :
  stranded email password uid w -> accountFor email password w = Some uid.
Proof.
  intros ((a & Ha & Hemail & Hpw) & _ & Honly). unfold accountFor.
  by rewrite (accountFor_only email password uid a w).
Qed.

Lemma stranded_registered email password uid w :
  stranded email password uid w -> registered email w = true.
Proof.
  intros ((a & Ha & Hemail & _) & _). unfold registered.
  apply bool_decide_eq_true, map_Exists_lookup. eauto.
Qed.

(** An account that has no profile can neither sign in nor be created
    again: [signIn] opens the session and then fails with the generic
    message, and [createUser] fails with the duplicate-email message. *)
Theorem stranded_account_locked_out email password username uid w :
  stranded email password uid w -> faults w = [] ->
  (∃ w1, signIn email password w = (Throw genericAuthFailure, w1)
         ∧ currentUser w1 = Some uid ∧ users w1 = users w)
  ∧ createUser email password username w
    = (Throw (newError "This email is already registered. Please sign in instead."), w).
Proof.
  intros Hs Hnil. pose proof (stranded_accountFor _ _ _ _ Hs) as Hacc.
  pose proof (stranded_registered _ _ _ _ Hs) as Hreg.
  destruct Hs as (_ & Hnone & _).
  apply accountFor_find in Hacc as (a & Hfind & _). split.
  - unfold_ops. world_simpl. rewrite Hnil, Hfind.
    repeat (world_simpl; rewrite ?Hnone, ?Hnil). eexists. split; [reflexivity|]. done.
  - unfold_ops. world_simpl. rewrite Hnil, Hreg. reflexivity.
Qed.

Lemma createUser_catch_message {A : Type} (error : Thrown) :
  @createUser_catch A error = throw (newError (getAuthErrorMessage (code error))).
Proof.
  unfold createUser_catch. case_bool_decide as Hc; [|done]. by rewrite Hc.
Qed.

(** When the write of the profile fails, [createUser] fails with the message
    mapped from the store's code, and the account it has opened stays behind
    without a profile. *)
Theorem createUser_profile_write_fails email password username w e :
  profilesHaveAccounts w -> registered email w = false ->
  faults w = [None; None; None; Some e] ->
  ∃ w1, createUser email password username w
        = (Throw (newError (getAuthErrorMessage (code e))), w1)
    ∧ stranded email password (fresh (dom (accounts w))) w1
    ∧ currentUser w1 = Some (fresh (dom (accounts w)))
    ∧ faults w1 = [].
Proof.
  intros Hinv Hreg Hf.
  pose proof (fresh_account_has_no_profile w Hinv) as Hnone.
  set (uid := fresh (dom (accounts w))) in *.
  assert (Hreg' : bool_decide (map_Exists (fun _ a => Account.email a = toLowerCase email)
                                          (accounts w)) = false) by exact Hreg.
  unfold createUser, try_catch.
  assert (Htry : ∃ w1, createUser_try email password username w = (Throw e, w1)
                       ∧ stranded email password uid w1
                       ∧ currentUser w1 = Some uid ∧ faults w1 = []).
  { unfold_ops. world_simpl. rewrite Hf. world_simpl. unfold registered. world_simpl.
    rewrite Hreg'. fold uid.
    repeat (world_simpl; rewrite ?lookup_insert_eq, ?Hnone).
    eexists. split; [reflexivity|]. unfold stranded. world_simpl. split; [|done].
    split; [|split; [done|]].
    - eexists. rewrite lookup_insert_eq. done.
    - intros uid' a' Ha' Hemail. rewrite insert_insert_eq in Ha'.
      destruct (decide (uid' = uid)) as [->|Hne]; [done|].
      rewrite lookup_insert_ne in Ha' by done. exfalso.
      apply bool_decide_eq_false in Hreg'. apply Hreg'. apply map_Exists_lookup. eauto. }
  destruct Htry as (w1 & -> & Hs & Hcur & Hnil). exists w1.
  rewrite createUser_catch_message. done.
Qed.

Lemma createUser_profile_write_fails_witness :
  (createUser "ann@example.com" "secret1" "ann" profileWriteFailsWorld).1
  = Throw genericAuthFailure
  ∧ stranded "ann@example.com" "secret1" "0" strandedWorld.
Proof.
  destruct (createUser_profile_write_fails "ann@example.com" "secret1" "ann"
              profileWriteFailsWorld offline)
    as (w1 & E & Hs & _);
    [unfold profilesHaveAccounts; by vm_compute|vm_compute; reflexivity|
     vm_compute; reflexivity|].
  unfold strandedWorld. rewrite E. split; [reflexivity|]. exact Hs.
Defined.

Lemma stranded_account_locked_out_witness :
  (signIn "ann@example.com" "secret1" strandedWorld).1 = Throw genericAuthFailure
  ∧ (createUser "ann@example.com" "secret1" "ann" strandedWorld).1
    = Throw (newError "This email is already registered. Please sign in instead.").
Proof.
  assert (Hs : stranded "ann@example.com" "secret1" "0" strandedWorld).
  { split; [|split].
    - eexists. vm_compute. repeat split.
    - vm_compute. reflexivity.
    - assert (Ha : accounts strandedWorld
                   = {[ "0" := Account.mk "ann@example.com" "secret1" (Some "ann") ]})
        by (vm_compute; reflexivity).
      intros uid' a' Ha' _. rewrite Ha in Ha'.
      apply lookup_singleton_Some in Ha' as [<- _]. reflexivity. }
  destruct (stranded_account_locked_out "ann@example.com" "secret1" "ann" "0" strandedWorld Hs)
    as ((w1 & E1 & _) & E2); [vm_compute; reflexivity|].
  rewrite E1, E2. split; reflexivity.
Defined.

(** ** Runs of [signOutUser] and [updateUserData] *)

(** The analytics helper with the event it records: the event is appended
    unless the call into the service throws. *)
Lemma wp_logAnalyticsEvent_events w name params (Q : Outcome unit -> World -> Prop) :
  (∀ w', sameStore w w' -> clock w' = clock w -> completions w' = completions w ->
         (faults w = [] -> faults w' = []) ->
         (events w' = events w ∧ faults w ≠ [])
         ∨ events w' = (events w ++ [Build_Event name params])%list ->
         Q (Return tt) w') ->
  wp (logAnalyticsEvent name params) Q w.
Proof.
  intros HQ. unfold logAnalyticsEvent, logEvent.
  apply wp_try_catch, wp_external.
  - intros e fs Hf. apply wp_ret, HQ; try done.
    + by rewrite Hf.
    + left. split; [done|]. by rewrite Hf.
  - intros fs Hfs. apply HQ; try done. by right.
Qed.

Lemma wp_signOut w Q :
  throwsAt w Q ->
  (∀ fs, (faults w = [] -> fs = []) ->
     Q (Return tt) (set_currentUser None (set_faults fs w))) ->
  wp signOut Q w.
Proof. wp_external_op. Qed.

Lemma signOutUser_wp w :
  wp signOutUser
     (fun o w' =>
        users w' = users w ∧ premiumUsers w' = premiumUsers w ∧ accounts w' = accounts w
        ∧ (faults w = [] -> faults w' = [])
        ∧ match o with
          | Return _ =>
              currentUser w' = None
              ∧ (events w' = events w
                 ∨ ∃ userId, currentUser w = Some userId ∧ userId ≠ ""
                     ∧ events w'
                       = (events w ++ [Build_Event "user_signed_out"
                                         [("userId", PStr userId);
                                          ("timestamp", PTime (clock w))]])%list)
          | Throw e =>
              e = signOutFailure ∧ currentUser w' = currentUser w ∧ events w' = events w
              ∧ faults w ≠ []
          end) w.
Proof.
  unfold signOutUser, signOutUser_try.
  wp_step. wp_step. wp_step. wp_step.
  apply wp_signOut.
  { intros e fs Hfault. wp_step. world_simpl. repeat split; try done; by rewrite Hfault. }
  intros fs Hfs. world_simpl.
  destruct (currentUser w) as [userId|] eqn:Hcur.
  2:{ wp_step. world_simpl. repeat split; try done. by left. }
  case_bool_decide as Hempty.
  { wp_step. world_simpl. repeat split; try done. by left. }
  wp_step. wp_step.
  apply wp_logAnalyticsEvent_events.
  intros w' (Hu & Hpm & Ha & Hc) _ _ Hf Hev. world_simpl.
  repeat split; try done; [auto|].
  destruct Hev as [[Hev _]|Hev]; [by left|]. right. exists userId. done.
Qed.

(** A property that [setField] has written is read back with its value,
    and the other properties are read back as they were. *)
Lemma getField_setField f d : getField (fieldKey f) (setField f d) = Some f.
Proof. by destruct f. Qed.

Lemma getField_setField_ne f key d :
  fieldKey f ≠ key -> getField key (setField f d) = getField key d.
Proof.
  intros Hne. unfold getField.
  repeat (destruct (key =? _) eqn:Hk;
          [apply String.eqb_eq in Hk; subst key; by destruct f|clear Hk]).
  done.
Qed.

Lemma getField_fold_untouched key data d :
  key ∉ fieldKey <$> data ->
  getField key (fold_left (fun d f => setField f d) data d) = getField key d.
Proof.
  revert d. induction data as [|g data IH]; intros d Hnot; [done|].
  rewrite fmap_cons, not_elem_of_cons in Hnot. destruct Hnot as [Hne Hnot].
  cbn. rewrite IH by done. by apply getField_setField_ne.
Qed.

Lemma getField_fold_member f data d :
  NoDup (fieldKey <$> data) -> f ∈ data ->
  getField (fieldKey f) (fold_left (fun d f => setField f d) data d) = Some f.
Proof.
  revert d. induction data as [|g data IH]; intros d Hnd Hin; [by apply elem_of_nil in Hin|].
  rewrite fmap_cons in Hnd. apply NoDup_cons in Hnd as [Hnot Hnd].
  apply elem_of_cons in Hin as [->|Hin]; cbn.
  - rewrite getField_fold_untouched by done. apply getField_setField.
  - by apply IH.
Qed.

Lemma updateUserData_wp userId data w :
  wp (updateUserData userId data)
     (fun o w' =>
        premiumUsers w' = premiumUsers w ∧ accounts w' = accounts w
        ∧ currentUser w' = currentUser w ∧ (faults w = [] -> faults w' = [])
        ∧ match o with
          | Return _ =>
              ∃ p, users w !! userId = Some p
                ∧ users w' = <[userId := patchedFields data (clock w) p]> (users w)
          | Throw e =>
              e = updateFailure ∧ users w' = users w
              ∧ (users w !! userId = None ∨ faults w ≠ [])
          end) w.
Proof.
  unfold updateUserData, updateUserData_try.
  wp_step. wp_step. wp_step. wp_step.
  apply wp_updateDoc_users.
  { intros e fs Hfault. wp_step. world_simpl.
    repeat split; try done; [by rewrite Hfault|right; by rewrite Hfault]. }
  intros fs Hfs. world_simpl.
  destruct (users w !! userId) as [p|] eqn:Hp.
  2:{ wp_step. world_simpl. repeat split; try done. by left. }
  wp_step. wp_step.
  apply wp_logAnalyticsEvent. intros w' Hu Hpm Ha Hc _ _ Hf. world_simpl.
  repeat split; try done; [auto|]. exists p. done.
Qed.

(** [signOutUser] either returns with nobody signed in, or throws its one
    message with the session and the events as they were; it records the
    event only for a user who was signed in, and it leaves the collections
    and the accounts alone. *)
Theorem signOutUser_outcome w :
  ∃ o w', signOutUser w = (o, w')
    ∧ users w' = users w ∧ premiumUsers w' = premiumUsers w ∧ accounts w' = accounts w
    ∧ ((o = Return tt ∧ currentUser w' = None
        ∧ (events w' = events w
           ∨ ∃ userId, currentUser w = Some userId
               ∧ events w'
                 = (events w ++ [Build_Event "user_signed_out"
                                   [("userId", PStr userId);
                                    ("timestamp", PTime (clock w))]])%list))
       ∨ (o = Throw signOutFailure ∧ currentUser w' = currentUser w
          ∧ events w' = events w ∧ faults w ≠ [])).
Proof.
  pose proof (signOutUser_wp w) as Hwp. unfold wp in Hwp.
  destruct (signOutUser w) as [o w']. cbn [fst snd] in Hwp. exists o, w'.
  destruct Hwp as (Hu & Hpm & Ha & _ & Ho). repeat (split; [done|]).
  destruct o as [[]|e].
  - left. destruct Ho as (Hc & [Hev|(userId & Hcur & _ & Hev)]); eauto 10.
  - right. destruct Ho as (-> & Hc & Hev & Hf). done.
Qed.

(** [updateUserData] either rewrites the existing profile with the given
    properties and the time of the call, or throws its one message with the
    profiles as they were: it creates no profile, and it touches neither the
    subscription records nor the accounts. *)
Theorem updateUserData_outcome userId data w :
  ∃ o w', updateUserData userId data w = (o, w')
    ∧ premiumUsers w' = premiumUsers w ∧ accounts w' = accounts w
    ∧ currentUser w' = currentUser w
    ∧ ((o = Return tt
        ∧ ∃ p, users w !! userId = Some p
            ∧ users w' = <[userId := patchedFields data (clock w) p]> (users w))
       ∨ (o = Throw updateFailure ∧ users w' = users w
          ∧ (users w !! userId = None ∨ faults w ≠ []))).
Proof.
  pose proof (updateUserData_wp userId data w) as Hwp. unfold wp in Hwp.
  destruct (updateUserData userId data w) as [o w']. cbn [fst snd] in Hwp. exists o, w'.
  destruct Hwp as (Hpm & Ha & Hc & _ & Ho). repeat (split; [done|]).
  destruct o as [[]|e].
  - left. done.
  - right. destruct Ho as (-> & Hrest). done.
Qed.

(** After [updateUserData] has returned, the stored profile has the time of
    the call as [updatedAt], whatever [data] says; every other property of
    [data] is read back from it with the given value, and every property
    [data] does not name is read back as it was before, an absent one as
    absent. *)
Theorem updateUserData_stored userId data w w' :
  updateUserData userId data w = (Return tt, w') ->
  NoDup (fieldKey <$> data) ->
  ∃ p p', users w !! userId = Some p ∧ users w' !! userId = Some p'
    ∧ UserData.updatedAt p' = clock w
    ∧ UserData.premiumDocId p' = UserData.premiumDocId p
    ∧ (∀ f, f ∈ data -> fieldKey f ≠ "updatedAt" -> getField (fieldKey f) p' = Some f)
    ∧ (∀ key, key ∉ fieldKey <$> data -> key ≠ "updatedAt" ->
         getField key p' = getField key p).
Proof.
  intros E Hnd. pose proof (updateUserData_wp userId data w) as Hwp.
  apply (wp_run _ _ _ _ _ E) in Hwp as (_ & _ & _ & _ & p & Hp & Hu).
  exists p, (patchedFields data (clock w) p). split; [done|].
  split; [by rewrite Hu, lookup_insert_eq|]. split; [reflexivity|]. split; [|split].
  - unfold patchedFields. cbn. generalize p. clear.
    induction data as [|g data IH]; intros p; [done|]. cbn. rewrite IH. by destruct g.
  - intros f Hin Hkey. unfold patchedFields.
    rewrite getField_setField_ne by (cbn; congruence). by apply getField_fold_member.
  - intros key Hnot Hkey. unfold patchedFields.
    rewrite getField_setField_ne by (cbn; congruence). by apply getField_fold_untouched.
Qed.

(** The name is replaced, the [updatedAt] of [data] is not stored, the email
    is kept and the absent [premiumSince] stays absent. *)
Lemma updateUserData_stored_witness :
  ∃ p', users (updateUserData "0" [F_username "bea"; F_updatedAt 0] signedUpWorld).2 !! "0"
        = Some p'
    ∧ UserData.username p' = "bea" ∧ UserData.updatedAt p' = clock signedUpWorld
    ∧ UserData.email p' = "ann@example.com" ∧ UserData.premiumSince p' = None.
Proof.
  destruct (updateUserData_stored "0" [F_username "bea"; F_updatedAt 0] signedUpWorld
              (updateUserData "0" [F_username "bea"; F_updatedAt 0] signedUpWorld).2)
    as (p & p' & Hp & Hp' & Ht & _ & Hgiven & Hkept).
  - vm_compute. reflexivity.
  - apply (bool_decide_unpack _). vm_compute. exact I.
  - exists p'. split; [exact Hp'|].
    assert (Hp0 : p = sampleProfile "ann@example.com" false).
    { clear -Hp. vm_compute in Hp. injection Hp as <-; reflexivity. }
    assert (Hname : getField "username" p' = Some (F_username "bea")).
    { apply (Hgiven (F_username "bea")); [apply list_elem_of_here|done]. }
    assert (Hemail : getField "email" p' = getField "email" p).
    { apply Hkept; [apply (bool_decide_unpack _); vm_compute; exact I|done]. }
    assert (Hsince : getField "premiumSince" p' = getField "premiumSince" p).
    { apply Hkept; [apply (bool_decide_unpack _); vm_compute; exact I|done]. }
    rewrite Hp0 in Hemail, Hsince. clear -Hname Hemail Hsince Ht.
    unfold getField in *. cbn in *.
    injection Hname as Hname. injection Hemail as Hemail.
    destruct (UserData.premiumSince p'); [discriminate|]. done.
Defined.

(** What [updateUserData] writes into [isPremium] does not outlast the next
    verification: when no call fails, [verifyPremiumStatus] after
    [updateUserData] finds the profile premium exactly when an active
    subscription record has the lower-cased email of the rewritten profile,
    and stores that. *)
Theorem updateUserData_then_verify userId data w p :
  faults w = [] -> users w !! userId = Some p ->
  ∃ w1 r w2, updateUserData userId data w = (Return tt, w1)
    ∧ verifyPremiumStatus userId w1 = (Return r, w2)
    ∧ (Verification.isPremium r = true
       ↔ hasActiveSubscription (toLowerCase (UserData.email (patchedFields data (clock w) p)))
                               (premiumUsers w))
    ∧ ∃ p2, users w2 !! userId = Some p2
        ∧ UserData.isPremium p2 = Verification.isPremium r.
Proof.
  intros Hnil Hp. pose proof (updateUserData_wp userId data w) as Hwp. unfold wp in Hwp.
  destruct (updateUserData userId data w) as [o w1]. cbn [fst snd] in Hwp.
  destruct Hwp as (Hpm & _ & _ & Hf & Ho). specialize (Hf Hnil).
  destruct o as [[]|e]; [|by destruct Ho as (_ & _ & [Hnone|Hne]); congruence].
  destruct Ho as (p' & Hp' & Hu). rewrite Hp in Hp'. injection Hp' as <-.
  destruct (verifyPremiumStatus_returns userId w1) as (r & w2 & E & Hv).
  exists w1, r, w2. split; [done|]. split; [done|].
  destruct Hv as (_ & _ & _ & _ & _ & Hv).
  assert (Hp1 : users w1 !! userId = Some (patchedFields data (clock w) p))
    by (by rewrite Hu, lookup_insert_eq).
  destruct (Verification.error r) as [message|].
  { destruct Hv as (_ & _ & Hnone). destruct (Hnone Hf) as [Hnone' _]. congruence. }
  destruct Hv as (p1 & Hp1' & Hr & Hu2). rewrite Hp1 in Hp1'. injection Hp1' as <-.
  split.
  - rewrite Hr, Hpm. apply queryNonEmpty_active.
  - eexists. split; [by rewrite Hu2, lookup_insert_eq|]. reflexivity.
Qed.

Lemma updateUserData_then_verify_witness :
  ∃ p2, users (verifyPremiumStatus "0"
                 (updateUserData "0" [F_isPremium true] signedUpWorld).2).2 !! "0" = Some p2
    ∧ UserData.isPremium p2 = false.
Proof.
  destruct (updateUserData_then_verify "0" [F_isPremium true] signedUpWorld
              (sampleProfile "ann@example.com" false))
    as (w1 & r & w2 & E1 & E2 & Hiff & p2 & Hp2 & Hprem);
    [vm_compute; reflexivity|vm_compute; reflexivity|].
  rewrite E1. cbn [snd]. rewrite E2. cbn [snd]. exists p2. split; [exact Hp2|].
  rewrite Hprem. destruct (Verification.isPremium r); [|reflexivity].
  exfalso. destruct Hiff as [Hiff _]. destruct (Hiff eq_refl) as (id & d & Hd & _).
  clear -Hd. vm_compute in Hd. discriminate Hd.
Defined.

(** ** Runs of [addPremiumUser] and [getUserData] that fail part-way *)

(** [addPremiumUser] rejects an empty email, a call without a signed-in
    user and a user without a profile, each with its own message and
    without writing anything. *)
Theorem addPremiumUser_rejects email w :
  (email = "" -> addPremiumUser email w = (Throw (newError "Email is required"), w))
  ∧ (email ≠ "" -> currentUser w = None ->
     addPremiumUser email w = (Throw (newError "No authenticated user found"), w))
  ∧ (email ≠ "" -> faults w = [] ->
     ∀ userId, currentUser w = Some userId -> users w !! userId = None ->
     addPremiumUser email w = (Throw (newError "User document not found"), w)).
Proof.
  split; [|split].
  - intros ->. reflexivity.
  - intros Hemail Hcur. unfold addPremiumUser. rewrite bool_decide_eq_false_2 by done.
    unfold_ops. by rewrite Hcur.
  - intros Hemail Hnil userId Hcur Hnone. unfold addPremiumUser.
    rewrite bool_decide_eq_false_2 by done.
    unfold_ops. rewrite Hcur, Hnil, Hnone. reflexivity.
Qed.

(** The grant is not atomic.  When the write of the profile fails after the
    subscription record has been written, [addPremiumUser] throws the error
    of the store as it is, the record stays active and the profile stays as
    it was; a later verification that goes through makes the profile premium
    when its email, lower-cased, is the granted one. *)
Theorem addPremiumUser_profile_write_fails email w userId p e :
  email ≠ "" -> currentUser w = Some userId -> users w !! userId = Some p ->
  faults w = [None; None; None; Some e] ->
  ∃ w', addPremiumUser email w = (Throw e, w')
    ∧ users w' = users w
    ∧ hasActiveSubscription (toLowerCase email) (premiumUsers w')
    ∧ faults w' = []
    ∧ (toLowerCase (UserData.email p) = toLowerCase email ->
       ∃ r w2, verifyPremiumStatus userId w' = (Return r, w2)
         ∧ Verification.isPremium r = true
         ∧ UserData.isPremium <$> users w2 !! userId = Some true).
Proof.
  intros Hemail Hcur Hp Hf.
  assert (Hrun : ∃ w', addPremiumUser email w = (Throw e, w')
            ∧ users w' = users w
            ∧ hasActiveSubscription (toLowerCase email) (premiumUsers w')
            ∧ faults w' = []).
  { unfold addPremiumUser. rewrite bool_decide_eq_false_2 by done.
    unfold_ops. rewrite Hcur, Hf. world_simpl. rewrite Hp. world_simpl.
    destruct (List.filter _ _) as [|[id d] l] eqn:Hq.
    - world_simpl. eexists. split; [reflexivity|]. world_simpl.
      split; [done|]. split; [|done].
      eexists _, _. rewrite lookup_insert_eq. done.
    - apply (filter_head_lookup (fun d => PremiumUser.email d =? toLowerCase email))
        in Hq as [Hid Hd].
      apply String.eqb_eq in Hd. world_simpl. rewrite Hid. world_simpl.
      eexists. split; [reflexivity|]. world_simpl.
      split; [done|]. split; [|done].
      eexists _, _. rewrite lookup_insert_eq. done. }
  destruct Hrun as (w' & E & Hu & Hact & Hnil). exists w'.
  repeat (split; [done|]). intros Hsame.
  destruct (verifyPremiumStatus_returns userId w') as (r & w2 & E2 & Hv).
  exists r, w2. split; [done|].
  destruct Hv as (_ & _ & _ & _ & _ & Hv).
  destruct (Verification.error r) as [message|].
  { destruct Hv as (_ & _ & Hnone). destruct (Hnone Hnil) as [Hnone' _]. congruence. }
  destruct Hv as (p1 & Hp1 & Hr & Hu2). rewrite Hu, Hp in Hp1. injection Hp1 as <-.
  assert (Hprem : Verification.isPremium r = true).
  { rewrite Hr, Hsame. by apply queryNonEmpty_active. }
  split; [done|]. rewrite Hu2, lookup_insert_eq, Hprem. reflexivity.
Qed.

Lemma addPremiumUser_profile_write_fails_witness :
  (addPremiumUser "Ann@Example.com" grantWriteFailsWorld).1 = Throw offline
  ∧ UserData.isPremium
      <$> users (addPremiumUser "Ann@Example.com" grantWriteFailsWorld).2 !! "0" = Some false
  ∧ hasActiveSubscription "ann@example.com"
      (premiumUsers (addPremiumUser "Ann@Example.com" grantWriteFailsWorld).2).
Proof.
  destruct (addPremiumUser_profile_write_fails "Ann@Example.com" grantWriteFailsWorld "0"
              (sampleProfile "ann@example.com" false) offline)
    as (w' & E & Hu & Hact & _);
    [done|vm_compute; reflexivity|vm_compute; reflexivity|vm_compute; reflexivity|].
  rewrite E. cbn [fst snd]. split; [reflexivity|]. split; [|exact Hact].
  rewrite Hu. vm_compute. reflexivity.
Defined.

Lemma addPremiumUser_oneRecordPerEmail_wp email w :
  oneRecordPerEmail (premiumUsers w) ->
  wp (addPremiumUser email) (fun _ w' => oneRecordPerEmail (premiumUsers w')) w.
Proof.
  intros Hone. unfold addPremiumUser, addPremiumUser_try.
  case_bool_decide as Hemail; [by wp_step|].
  wp_step. wp_step. wp_step.
  destruct (currentUser w) as [userId|] eqn:Hcur; [|by wp_steps].
  wp_step. wp_step; [by wp_step|].
  destruct (users w !! userId) as [p|] eqn:Hp; [|by wp_steps].
  wp_step. wp_step; [by wp_step|]. wp_step.
  eapply (wp_mono _ (fun _ w1 => oneRecordPerEmail (premiumUsers w1))).
  { destruct (List.filter _ _) as [|[id d] l] eqn:Hq.
    - assert (Hnew : ∀ id' d', premiumUsers w !! id' = Some d' ->
                               PremiumUser.email d' ≠ toLowerCase email).
      { intros id' d' Hd' He.
        assert (Hin : In (id', d')
                        (List.filter (fun d => PremiumUser.email (snd d) =? toLowerCase email)
                                     (map_to_list (premiumUsers w)))).
        { apply filter_In. split; [by apply list_elem_of_In, elem_of_map_to_list|].
          by apply String.eqb_eq. }
        by rewrite Hq in Hin. }
      assert (Hfresh : premiumUsers w !! fresh (dom (premiumUsers w)) = None)
        by (apply not_elem_of_dom, is_fresh).
      wp_steps; [done|].
      intros id1 id2 d1 d2 H1 H2 He.
      destruct (decide (id1 = fresh (dom (premiumUsers w)))) as [->|Hn1];
        destruct (decide (id2 = fresh (dom (premiumUsers w)))) as [->|Hn2]; [done| | |].
      + rewrite lookup_insert_eq in H1. rewrite lookup_insert_ne in H2 by done.
        injection H1 as <-. cbn in He. exfalso. by eapply Hnew.
      + rewrite lookup_insert_eq in H2. rewrite lookup_insert_ne in H1 by done.
        injection H2 as <-. cbn in He. exfalso. by eapply Hnew.
      + rewrite lookup_insert_ne in H1, H2 by done. by eapply Hone.
    - apply (filter_head_lookup (fun d => PremiumUser.email d =? toLowerCase email))
        in Hq as [Hid _].
      wp_steps; [done|].
      intros id1 id2 d1 d2 H1 H2 He.
      destruct (decide (id1 = id)) as [->|Hn1]; destruct (decide (id2 = id)) as [->|Hn2];
        [done| | |].
      + rewrite lookup_insert_eq in H1. rewrite lookup_insert_ne in H2 by done.
        injection H1 as <-. cbn in He. by eapply Hone.
      + rewrite lookup_insert_eq in H2. rewrite lookup_insert_ne in H1 by done.
        injection H2 as <-. cbn in He. by eapply Hone.
      + rewrite lookup_insert_ne in H1, H2 by done. by eapply Hone. }
  intros [id|e] w1 Hone1; [|by wp_step].
  wp_step. wp_step. wp_step. wp_step. wp_step. wp_step. wp_step. wp_step; [by wp_step|].
  destruct (users w1 !! userId) as [p1|]; [|by wp_step].
  wp_step. wp_step. wp_step.
  apply wp_logAnalyticsEvent. intros w' _ Hpm' _ _ _ _ _. world_simpl. wp_step.
  wp_verify r Hv. destruct Hv as (Hpm & _).
  assert (Hone0 : oneRecordPerEmail (premiumUsers w0)) by (by rewrite Hpm, Hpm').
  case_match; wp_step; [wp_step|]; done.
Qed.

(** [addPremiumUser] never makes a second subscription record for an email:
    if no two records share an email before the call, none do after it,
    whatever fails on the way. *)
Theorem addPremiumUser_oneRecordPerEmail email w :
  oneRecordPerEmail (premiumUsers w) ->
  oneRecordPerEmail (premiumUsers (addPremiumUser email w).2).
Proof. intros Hone. by apply addPremiumUser_oneRecordPerEmail_wp. Qed.

Lemma addPremiumUser_oneRecordPerEmail_witness :
  oneRecordPerEmail (premiumUsers premiumWorld)
  ∧ oneRecordPerEmail (premiumUsers (addPremiumUser "ANN@example.com" premiumWorld).2).
Proof.
  assert (H0 : oneRecordPerEmail (premiumUsers premiumWorld)).
  { assert (Hpm : premiumUsers premiumWorld
                  = {[ "0" := PremiumUser.mk "ann@example.com" "0" true true 4 5 ]})
      by (vm_compute; reflexivity).
    rewrite Hpm. intros id1 id2 d1 d2 H1 H2 _.
    apply lookup_singleton_Some in H1 as [<- _].
    apply lookup_singleton_Some in H2 as [<- _]. reflexivity. }
  split; [exact H0|]. apply (addPremiumUser_oneRecordPerEmail _ _ H0).
Defined.

(** A forced refresh whose verification meets a failure of the store does
    not fail: [getUserData] returns the profile with [isPremium = false] and
    writes that into the stored profile of a premium user, whatever the
    subscription records say. *)
Theorem getUserData_refresh_outage_demotes userId w p e k :
  users w !! userId = Some p -> UserData.isPremium p = true ->
  k < 3 ->
  faults w = None :: replicate k None ++ [Some e] ->
  ∃ w' t1 t2, getUserData userId true w = (Return (withIsPremium false p), w')
    ∧ users w' = <[userId := refreshedFields false t1 t2 p]> (users w)
    ∧ premiumUsers w' = premiumUsers w.
Proof.
  intros Hp Hprem Hk Hf.
  destruct k as [|[|[|k]]]; [| | |lia]; cbn in Hf;
    unfold_ops; world_simpl; rewrite Hf;
    repeat (world_simpl; rewrite ?Hp, ?Hprem; cbn [negb Bool.eqb Verification.isPremium]);
    eexists _, _, _; (split; [reflexivity|]);
    world_simpl; split; reflexivity.
Qed.

Lemma getUserData_refresh_outage_demotes_witness :
  hasActiveSubscription "ann@example.com" (premiumUsers premiumWorld)
  ∧ UserData.isPremium <$> returned (getUserData "0" true outageAtRefreshWorld).1 = Some false
  ∧ UserData.isPremium <$> users (getUserData "0" true outageAtRefreshWorld).2 !! "0"
    = Some false.
Proof.
  split; [exists "0", (PremiumUser.mk "ann@example.com" "0" true true 4 5); by vm_compute|].
  destruct (getUserData_refresh_outage_demotes "0" outageAtRefreshWorld
              (default upperCaseProfile (users premiumWorld !! "0")) offline 0)
    as (w' & t1 & t2 & E & Hu & _); [by vm_compute|by vm_compute|lia|by vm_compute|].
  rewrite E. split; [reflexivity|]. cbn [snd]. rewrite Hu, lookup_insert_eq. reflexivity.
Defined.

(** ** The profiles keep to the accounts, continued *)

Lemma signIn_keepsProfileKeys email password w :
  wp (signIn email password) (fun _ w' => keepsProfileKeys w w') w.
Proof.
  unfold signIn, signIn_try, signIn_catch.
  wp_step. wp_step.
  apply wp_signInWithEmailAndPassword; [by intros e fs Hfault; wp_step|].
  intros fs Hfs. destruct (accountFor email password w) as [uid|]; [|by wp_step].
  wp_step. wp_verify r Hv. apply verified_keepsProfileKeys in Hv as [Hd Ha]. world_simpl.
  wp_step. wp_step. wp_step. wp_step. wp_step.
  apply wp_updateDoc_users; [intros e fs' Hfault; wp_step; by split|].
  intros fs' Hfs'. world_simpl.
  destruct (users w0 !! uid) as [p0|] eqn:Hp0; [|wp_step; by split].
  wp_step. wp_step. wp_step.
  apply wp_logAnalyticsEvent. intros w' Hu' _ Ha' _ _ _ _. world_simpl. wp_step.
  split; [|congruence]. rewrite Hu', dom_insert_lookup_L; [done|eauto].
Qed.

(** The operations on a session and on a profile keep the profiles within
    the accounts of the identity provider as well. *)
Theorem profilesHaveAccounts_kept w :
  profilesHaveAccounts w ->
  (∀ email password, profilesHaveAccounts (signIn email password w).2)
  ∧ profilesHaveAccounts (signOutUser w).2
  ∧ (∀ userId data, profilesHaveAccounts (updateUserData userId data w).2).
Proof.
  intros Hinv. split; [|split].
  - intros email password. eapply keepsProfileKeys_invariant; [|done].
    apply signIn_keepsProfileKeys.
  - destruct (signOutUser_wp w) as (Hu & _ & Ha & _).
    unfold profilesHaveAccounts. by rewrite Hu, Ha.
  - intros userId data.
    pose proof (updateUserData_wp userId data w) as Hwp. unfold wp in Hwp.
    destruct (updateUserData userId data w) as [o w']. cbn [fst snd] in *.
    destruct Hwp as (_ & Ha & _ & _ & Ho). unfold profilesHaveAccounts in *. rewrite Ha.
    destruct o as [[]|e].
    + destruct Ho as (p & Hp & ->). rewrite dom_insert_lookup_L; [done|eauto].
    + by destruct Ho as (_ & -> & _).
Qed.

Lemma profilesHaveAccounts_kept_witness :
  profilesHaveAccounts signedUpWorld
  ∧ profilesHaveAccounts (signIn "ann@example.com" "secret1" signedUpWorld).2.
Proof.
  assert (H0 : profilesHaveAccounts signedUpWorld)
    by (unfold profilesHaveAccounts; by vm_compute).
  split; [exact H0|].
  destruct (profilesHaveAccounts_kept signedUpWorld H0) as [Hs _]. exact (Hs _ _).
Defined.

(** ** From sign-up to sign-in *)

(** Sign-up, sign-out and sign-in fit together.  When no call fails, for an
    email that is not registered: [createUser] returns a user; [signOutUser]
    then closes the session; [signIn] with the same password and the email
    in any letter case then returns the same user.  That sign-in is also
    where a subscription bought before the sign-up takes effect: the stored
    profile is premium exactly when an active record has the lower-cased
    email. *)
Theorem createUser_signOut_signIn email email' password username w :
  profilesHaveAccounts w -> faults w = [] -> registered email w = false ->
  toLowerCase email' = toLowerCase email ->
  ∃ uid w1 w2 w3,
    createUser email password username w = (Return uid, w1)
    ∧ signOutUser w1 = (Return tt, w2) ∧ currentUser w2 = None
    ∧ signIn email' password w2 = (Return uid, w3) ∧ currentUser w3 = Some uid
    ∧ ∃ p3, users w3 !! uid = Some p3
        ∧ (UserData.isPremium p3 = true
           ↔ hasActiveSubscription (toLowerCase email) (premiumUsers w)).
Proof.
  intros Hinv Hnil Hreg Hcase.
  pose proof (fresh_account_has_no_profile w Hinv) as Hnone.
  assert (Hreg' : bool_decide (map_Exists (fun _ a => Account.email a = toLowerCase email)
                                          (accounts w)) = false) by exact Hreg.
  set (uid := fresh (dom (accounts w))) in *.
  set (a := Account.mk (toLowerCase email) password (Some username)).
  exists uid.
  assert (H1 : ∃ w1, createUser email password username w = (Return uid, w1)
             ∧ faults w1 = [] ∧ accounts w1 = <[uid := a]> (accounts w)
             ∧ premiumUsers w1 = premiumUsers w
             ∧ ∃ t1 t2, users w1
                 = <[uid := newUserData username email false t1 t2]> (users w)).
  { unfold_ops. world_simpl. rewrite Hnil. world_simpl. unfold registered. world_simpl.
    rewrite Hreg'. fold uid.
    repeat (world_simpl; rewrite ?lookup_insert_eq, ?Hnone, ?Hnil).
    eexists. split; [reflexivity|]. world_simpl.
    split; [done|]. split; [by rewrite insert_insert_eq|]. split; [done|]. eauto. }
  destruct H1 as (w1 & E1 & Hnil1 & Ha1 & Hpm1 & t1 & t2 & Hu1). exists w1.
  assert (H2 : ∃ w2, signOutUser w1 = (Return tt, w2) ∧ currentUser w2 = None
             ∧ faults w2 = [] ∧ accounts w2 = accounts w1 ∧ users w2 = users w1
             ∧ premiumUsers w2 = premiumUsers w1).
  { pose proof (signOutUser_wp w1) as Hwp. unfold wp in Hwp.
    destruct (signOutUser w1) as [o w2]. cbn [fst snd] in Hwp.
    destruct Hwp as (Hu & Hpm & Ha & Hf & Ho). exists w2.
    destruct o as [[]|e]; [|by destruct Ho as (_ & _ & _ & Hne)].
    destruct Ho as [Hc _]. auto 10. }
  destruct H2 as (w2 & E2 & Hcur2 & Hnil2 & Ha2 & Hu2 & Hpm2). exists w2.
  assert (Hfind : List.find (fun ua => (Account.email (snd ua) =? toLowerCase email')
                                       && (Account.password (snd ua) =? password))
                            (map_to_list (accounts w2)) = Some (uid, a)).
  { apply accountFor_only; rewrite ?Ha2, ?Ha1, ?lookup_insert_eq; try done.
    intros uid' a' Ha' Hemail.
    destruct (decide (uid' = uid)) as [->|Hne]; [done|].
    rewrite lookup_insert_ne in Ha' by done. exfalso.
    apply bool_decide_eq_false in Hreg'. apply Hreg'. apply map_Exists_lookup.
    exists uid', a'. split; [done|]. by rewrite <-Hcase. }
  assert (Hp2 : users w2 !! uid = Some (newUserData username email false t1 t2))
    by (by rewrite Hu2, Hu1, lookup_insert_eq).
  assert (H3 : ∃ w3 b t3 t4 p, signIn email' password w2 = (Return uid, w3)
             ∧ currentUser w3 = Some uid
             ∧ users w3 !! uid = Some (refreshedFields b t3 t4 p)
             ∧ b = queryNonEmpty (activeSubscriptionOf (toLowerCase (toLowerCase email)))
                                 (premiumUsers w2)).
  { unfold_ops. world_simpl. rewrite Hnil2, Hfind.
    repeat (world_simpl; rewrite ?Hp2, ?Hnil2, ?lookup_insert_eq).
    eexists _, _, _, _, _. split; [reflexivity|]. world_simpl.
    split; [done|]. split; [by rewrite lookup_insert_eq|]. reflexivity. }
  destruct H3 as (w3 & b & t3 & t4 & p & E3 & Hcur3 & Hp3 & Hb). exists w3.
  repeat (split; [done|]). eexists. split; [exact Hp3|].
  cbn [refreshedFields UserData.isPremium]. rewrite Hb, toLowerCase_idem, Hpm2, Hpm1.
  apply queryNonEmpty_active.
Qed.

Lemma createUser_signOut_signIn_witness :
  (createUser "Ann@Example.com" "secret1" "ann" prepaidWorld).1 = Return "0"
  ∧ (signIn "ann@example.com" "secret1"
       (signOutUser (createUser "Ann@Example.com" "secret1" "ann" prepaidWorld).2).2).1
    = Return "0".
Proof.
  destruct (createUser_signOut_signIn "Ann@Example.com" "ann@example.com" "secret1" "ann"
              prepaidWorld)
    as (uid & w1 & w2 & w3 & E1 & E2 & _ & E3 & _);
    [unfold profilesHaveAccounts; by vm_compute|reflexivity|vm_compute; reflexivity
    |vm_compute; reflexivity|].
  assert (Huid : uid = "0").
  { clear -E1. apply (f_equal (fun x => returned x.1)) in E1. vm_compute in E1.
    by injection E1. }
  subst uid. rewrite E1. cbn [fst snd]. rewrite E2. cbn [snd]. rewrite E3. done.
Defined.

(** ** Runs of the other generation functions *)

Section RecipeProperties.
Variable JSON_parse : string -> option json.
Variable Ingredient : Type.

Ltac generation_unfold :=
  unfold generateRecipe, generateRecipe_try, generateRecipe_catch,
    generateCustomRecipe, generateCustomRecipe_try, generateCustomRecipe_catch,
    generateShoppingList, generateShoppingList_try, generateShoppingList_catch,
    generateMealPlan, generateMealPlan_try, generateMealPlan_catch,
    firstMessageContent, parseContent, getProperty, Analytics.logAnalyticsEvent.

Ltac same_store :=
  unfold sameStore; repeat split; congruence.

Lemma generateRecipe_wp ingredients w :
  wp (generateRecipe JSON_parse Ingredient ingredients)
     (fun o w' =>
        sameStore w w'
        ∧ match o with
          | Return recipe =>
              ∃ completion rest content others,
                completions w = completion :: rest
                ∧ choices completion = content :: others
                ∧ JSON_parse (default "null" content) = Some recipe
          | Throw e =>
              (∃ fs, faults w = Some e :: fs)
              ∨ (completions w = [] ∧ e = ErrorObj None "Connection error.")
              ∨ (∃ completion rest, completions w = completion :: rest
                   ∧ choices completion = []
                   ∧ e = ErrorObj None "Cannot read properties of undefined (reading 'message')")
              ∨ (∃ completion rest content others,
                   completions w = completion :: rest
                   ∧ choices completion = content :: others
                   ∧ JSON_parse (default "null" content) = None
                   ∧ e = ErrorObj None "Unexpected token in JSON")
          end) w.
Proof.
  generation_unfold. wp_steps.
  all: (split; [same_store|]); eauto 12.
Qed.

Lemma generateCustomRecipe_wp prompt w :
  wp (generateCustomRecipe prompt)
     (fun o w' =>
        sameStore w w'
        ∧ match o with
          | Return content =>
              ∃ completion rest others,
                completions w = completion :: rest
                ∧ choices completion = content :: others
          | Throw e =>
              (∃ fs, faults w = Some e :: fs)
              ∨ (completions w = [] ∧ e = ErrorObj None "Connection error.")
              ∨ (∃ completion rest, completions w = completion :: rest
                   ∧ choices completion = []
                   ∧ e = ErrorObj None "Cannot read properties of undefined (reading 'message')")
          end) w.
Proof.
  generation_unfold. wp_steps.
  all: (split; [same_store|]); eauto 12.
Qed.

Lemma generateShoppingList_wp meals w :
  wp (generateShoppingList JSON_parse meals)
     (fun o w' =>
        sameStore w w'
        ∧ (o = Throw shoppingListFailure
           ∨ ∃ completion rest content others response items,
               completions w = completion :: rest
               ∧ choices completion = content :: others
               ∧ JSON_parse (default "null" content) = Some response
               ∧ shoppingListOf response = Some (JArr items)
               ∧ o = Return (Some (JArr items)))) w.
Proof.
  generation_unfold. wp_steps.
  all: (split; [same_store|]); try (by left).
  all: right.
  all: match goal with
       | Hor : negb (truthy ?v) || negb (isArray ?v) = false |- _ =>
           apply orb_false_iff in Hor as [_ Hor]; apply negb_false_iff in Hor
       end.
  all: try discriminate.
  all: match goal with
       | Harr : isArray ?v = true |- _ =>
           destruct v as [[]|] eqn:Hv; try discriminate
       end.
  all: eexists _, _, _, _, _, _; repeat split; eauto.
Qed.

Lemma generateMealPlan_sameStore w :
  wp (generateMealPlan JSON_parse) (fun _ w' => sameStore w w') w.
Proof. generation_unfold. wp_steps. all: same_store. Qed.

End RecipeProperties.

(** [generateRecipe] returns whatever the content of the first choice
    parses to, without looking at its shape, and a failure reaches the caller
    as the error that was raised: the one of the endpoint, the one of the
    read of an empty list of choices, or the one of [JSON.parse]. *)
Theorem generateRecipe_outcome JSON_parse Ingredient
    (ingredients : list Ingredient) w :
  ∃ o w', generateRecipe JSON_parse Ingredient ingredients w = (o, w')
    ∧ match o with
      | Return recipe =>
          ∃ completion rest content others,
            completions w = completion :: rest
            ∧ choices completion = content :: others
            ∧ JSON_parse (default "null" content) = Some recipe
      | Throw e =>
          (∃ fs, faults w = Some e :: fs)
          ∨ (completions w = [] ∧ e = ErrorObj None "Connection error.")
          ∨ (∃ completion rest, completions w = completion :: rest
               ∧ choices completion = []
               ∧ e = ErrorObj None "Cannot read properties of undefined (reading 'message')")
          ∨ (∃ completion rest content others,
               completions w = completion :: rest
               ∧ choices completion = content :: others
               ∧ JSON_parse (default "null" content) = None
               ∧ e = ErrorObj None "Unexpected token in JSON")
      end.
Proof.
  pose proof (generateRecipe_wp JSON_parse Ingredient ingredients w) as Hwp. unfold wp in Hwp.
  destruct (generateRecipe JSON_parse Ingredient ingredients w) as [o w'].
  cbn [fst snd] in Hwp. exists o, w'. split; [done|]. by destruct Hwp as [_ Ho].
Qed.

(** [generateCustomRecipe] returns the content of the first choice as it
    is, a [null] content included, and a failure reaches the caller as the
    error that was raised. *)
Theorem generateCustomRecipe_outcome prompt w :
  ∃ o w', generateCustomRecipe prompt w = (o, w')
    ∧ match o with
      | Return content =>
          ∃ completion rest others,
            completions w = completion :: rest
            ∧ choices completion = content :: others
      | Throw e =>
          (∃ fs, faults w = Some e :: fs)
          ∨ (completions w = [] ∧ e = ErrorObj None "Connection error.")
          ∨ (∃ completion rest, completions w = completion :: rest
               ∧ choices completion = []
               ∧ e = ErrorObj None "Cannot read properties of undefined (reading 'message')")
      end.
Proof.
  pose proof (generateCustomRecipe_wp prompt w) as Hwp. unfold wp in Hwp.
  destruct (generateCustomRecipe prompt w) as [o w'].
  cbn [fst snd] in Hwp. exists o, w'. split; [done|]. by destruct Hwp as [_ Ho].
Qed.

(** [generateShoppingList] returns only the array found under
    [shoppingList] in the parsed answer; every failure, a wrong shape
    included, is replaced by its one message. *)
Theorem generateShoppingList_outcome JSON_parse meals w :
  ∃ o w', generateShoppingList JSON_parse meals w = (o, w')
    ∧ (o = Throw shoppingListFailure
       ∨ ∃ completion rest content others response items,
           completions w = completion :: rest
           ∧ choices completion = content :: others
           ∧ JSON_parse (default "null" content) = Some response
           ∧ shoppingListOf response = Some (JArr items)
           ∧ o = Return (Some (JArr items))).
Proof.
  pose proof (generateShoppingList_wp JSON_parse meals w) as Hwp. unfold wp in Hwp.
  destruct (generateShoppingList JSON_parse meals w) as [o w'].
  cbn [fst snd] in Hwp. exists o, w'. split; [done|]. by destruct Hwp as [_ Ho].
Qed.

(** The four generation functions leave the profiles, the subscription
    records, the accounts and the session as they were. *)
Theorem generation_leaves_store JSON_parse Ingredient
    (ingredients : list Ingredient) prompt meals w :
  sameStore w (generateRecipe JSON_parse Ingredient ingredients w).2
  ∧ sameStore w (generateCustomRecipe prompt w).2
  ∧ sameStore w (generateMealPlan JSON_parse w).2
  ∧ sameStore w (generateShoppingList JSON_parse meals w).2.
Proof.
  split; [|split; [|split]].
  - by destruct (generateRecipe_wp JSON_parse Ingredient ingredients w) as [Hs _].
  - by destruct (generateCustomRecipe_wp prompt w) as [Hs _].
  - apply generateMealPlan_sameStore.
  - by destruct (generateShoppingList_wp JSON_parse meals w) as [Hs _].
Qed.

(** An answer of the wrong shape is counted as a success before it is
    rejected: when no call fails, [generateMealPlan] on an answer whose
    [weeklyPlan] is missing or is not an array records the event
    [meal_plan_generated] and then the event [meal_plan_generation_error]. *)
Theorem generateMealPlan_invalid_shape_events JSON_parse w completion rest content others
    response :
  faults w = [] ->
  completions w = completion :: rest ->
  choices completion = content :: others ->
  JSON_parse (default "null" content) = Some response ->
  response ≠ JNull ->
  isArray (weeklyPlanOf response) = false ->
  events (generateMealPlan JSON_parse w).2
  = (events w
     ++ [Build_Event "meal_plan_generated" [("timestamp", PTime (S (clock w)))];
         Build_Event "meal_plan_generation_error"
           [("error", PStr "Invalid meal plan format received");
            ("timestamp", PTime (S (S (clock w))))]])%list.
Proof.
  intros Hnil Hc Hch Hparse Hnull Hshape.
  unfold generateMealPlan, generateMealPlan_try, generateMealPlan_catch, firstMessageContent,
    parseContent, Analytics.logAnalyticsEvent, chat_completions_create.
  unfold_ops. world_simpl. rewrite Hnil, Hc. world_simpl. rewrite Hch, Hparse.
  world_simpl. rewrite Hnil. world_simpl.
  destruct response as [|b|n|s|items|fields]; try done; cbn in Hshape |- *;
    rewrite ?Hnil; world_simpl; rewrite ?Hnil; world_simpl;
    try (by rewrite <-app_assoc).
  destruct (List.find _ _) as [[k v]|]; cbn in Hshape |- *.
  - destruct v; try done; cbn; rewrite ?orb_true_r; cbn; rewrite ?Hnil; world_simpl;
      by rewrite <-app_assoc.
  - rewrite ?Hnil; world_simpl. by rewrite <-app_assoc.
Qed.

Lemma generateMealPlan_invalid_shape_events_witness :
  eventName <$> events (generateMealPlan sampleParse (answeringWorld answerWithNumber)).2
  = ["meal_plan_generated"; "meal_plan_generation_error"].
Proof.
  rewrite (generateMealPlan_invalid_shape_events sampleParse (answeringWorld answerWithNumber)
             (Build_ChatCompletion [Some answerWithNumber]) [] (Some answerWithNumber) []
             (JObj [("weeklyPlan", JNum 7)]));
    [reflexivity|reflexivity|reflexivity|reflexivity|vm_compute; reflexivity|done|reflexivity].
Defined.
